(** * Blueprint bootstrap: build-action generation and stage orchestration

    A shallow embedding of [bootstrap/bootstrap.go]: the Go package and
    binary modules, the two graph mutators, the test pipeline, the phony
    fallbacks and the stage singleton.  Build actions are plain records
    appended to the context that receives them; the mutable module fields
    and the process-wide plugin list are threaded explicitly. *)

From Stdlib Require Import String Ascii List Bool Arith Lia.
From stdpp Require Import base option list strings gmap fin_maps.

Open Scope string_scope.
Open Scope list_scope.
Open Scope stdpp_scope.

(** ** Strings and paths

    [strings.Join] and the functions of Go's [path/filepath] that the
    source calls, for a Unix host (separator [/], no volume names). *)

Module strings.

(** [strings.Join(elems, sep)]. *)
Definition Join (elems : list string) (sep : string) : string :=
  String.concat sep elems.

End strings.

Module filepath.

Definition isSep (c : ascii) : bool := Ascii.eqb c "/".

(** The path elements between separators; a path with [n] separators
    has [n + 1] elements, some of them possibly empty. *)
Fixpoint elements (path : string) : list string :=
  match path with
  | EmptyString => [EmptyString]
  | String c rest =>
      if isSep c then EmptyString :: elements rest
      else match elements rest with
           | [] => [String c EmptyString]
           | e :: es => String c e :: es
           end
  end.

(** One element of [Clean]'s loop; [out] is the output buffer as a
    stack of elements, last written first. *)
Definition cleanElem (rooted : bool) (out : list string) (e : string)
  : list string :=
  if String.eqb e "" then out
  else if String.eqb e "." then out
  else if String.eqb e ".." then
    match out with
    | top :: below =>
        if String.eqb top ".." then e :: out else below
    | [] => if rooted then [] else [e]
    end
  else e :: out.

(** [filepath.Clean]. *)
Definition Clean (path : string) : string :=
  match path with
  | EmptyString => "."
  | String c _ =>
      let rooted := isSep c in
      let out := fold_left (cleanElem rooted) (elements path) [] in
      let body := String.concat "/" (rev out) in
      if rooted then "/" +:+ body
      else if String.eqb body "" then "." else body
  end.

(** [filepath.Join]: empty elements before the first non-empty one are
    dropped, the rest is joined with the separator and cleaned. *)
Fixpoint Join (elem : list string) : string :=
  match elem with
  | [] => ""
  | e :: rest =>
      if String.eqb e "" then Join rest
      else Clean (String.concat "/" elem)
  end.

(** The prefix of [path] up to and including its last separator. *)
Fixpoint uptoLastSep (path : string) : string :=
  match path with
  | EmptyString => EmptyString
  | String c rest =>
      let r := uptoLastSep rest in
      if isSep c || negb (String.eqb r "") then String c r
      else EmptyString
  end.

(** [filepath.Dir]. *)
Definition Dir (path : string) : string := Clean (uptoLastSep path).

(** [filepath.Base]: the last non-empty element. *)
Definition Base (path : string) : string :=
  match path with
  | EmptyString => "."
  | _ =>
      match List.filter (fun e => negb (String.eqb e "")) (elements path) with
      | [] => "/"
      | e :: es => List.last es e
      end
  end.

(** [filepath.FromSlash] is the identity where the separator is [/]. *)
Definition FromSlash (path : string) : string := path.

End filepath.


(** ** The interface of the graph engine and of the action sink *)

Module blueprint.

Record RuleParams := {
  Command : string;
  Description : string;
  Depfile : string;
  Generator : bool;
}.

(** A rule is either declared by the package ([pctx.StaticRule]),
    declared through a singleton context ([ctx.Rule]), or the engine's
    built-in [blueprint.Phony]. *)
Inductive Rule :=
| StaticRule (name : string) (params : RuleParams) (argNames : list string)
| ContextRule (name : string) (params : RuleParams) (argNames : list string)
| Phony.

End blueprint.

(** [blueprint.BuildParams]; a nil slice and a nil map are the empty
    list and the empty map. *)
Record BuildParams := {
  Rule : blueprint.Rule;
  Outputs : list string;
  Inputs : list string;
  Implicits : list string;
  OrderOnly : list string;
  Args : gmap string string;
}.

Module pathtools.

(** Modelled from the spec: [pathtools.PrefixPaths] lives in the
    repository's pathtools package, outside this file; it qualifies every
    path with the given root directory. *)
Definition PrefixPaths (paths : list string) (prefix : string) : list string :=
  map (fun path => filepath.Join [prefix; path]) paths.

End pathtools.

(** Modelled from the spec: the declaration of [Stage] is in the package's
    config.go, outside this file; the stages are the three ordered phases
    Bootstrap, Primary and Main. *)
Inductive Stage := StageBootstrap | StagePrimary | StageMain.

#[global] Instance Stage_eq_dec : EqDecision Stage.
Proof. solve_decision. Defined.

(** Modelled from the spec: the declaration of [Config] is in the package's
    config.go, outside this file; it carries the active stage, whether tests
    run, and the path of the top-level declaration file. *)
Record Config := {
  stage : Stage;
  topLevelBlueprintsFile : string;
  runGoTests : bool;
}.

Definition bootstrapDir : string := "$buildDir/.bootstrap".
Definition miniBootstrapDir : string := "$buildDir/.minibootstrap".

Definition mkRule (name command description : string) (generator : bool)
    (argNames : list string) : blueprint.Rule :=
  blueprint.StaticRule name
    {| blueprint.Command := command;
       blueprint.Description := description;
       blueprint.Depfile := "";
       blueprint.Generator := generator |}
    argNames.

Definition compile : blueprint.Rule :=
  mkRule "compile"
    ("GOROOT='$goRoot' $compileCmd -o $out -p $pkgPath -complete " +:+
     "$incFlags -pack $in")
    "compile $out" false ["pkgPath"; "incFlags"].

Definition link : blueprint.Rule :=
  mkRule "link" "GOROOT='$goRoot' $linkCmd -o $out $libDirFlags $in"
    "link $out" false ["libDirFlags"].

Definition goTestMain : blueprint.Rule :=
  mkRule "gotestmain" "$goTestMainCmd -o $out -pkg $pkg $in"
    "gotestmain $out" false ["pkg"].

Definition pluginGenSrc : blueprint.Rule :=
  mkRule "pluginGenSrc" "$pluginGenSrcCmd -o $out $plugins"
    "create $out" false ["plugins"].

Definition test : blueprint.Rule :=
  mkRule "test" "(cd $pkgSrcDir && $$OLDPWD/$in -test.short) && touch $out"
    "test $pkg" false ["pkg"; "pkgSrcDir"].

Definition cp : blueprint.Rule :=
  mkRule "cp" "cp $in $out" "cp $out" false ["generator"].

Definition bootstrap : blueprint.Rule :=
  mkRule "bootstrap" "$bootstrapCmd -i $in -b $buildDir"
    "bootstrap $in" true [].

Definition chooseStage : blueprint.Rule :=
  mkRule "chooseStage"
    "$chooseStageCmd --current $current --bootstrap $bootstrapManifest -o $out $in"
    "choosing next stage" false ["current"; "generator"].

Definition touch : blueprint.Rule :=
  mkRule "touch" "touch $out" "touch $out" false ["depfile"; "generator"].

Definition phony : blueprint.Rule :=
  mkRule "phony" "# phony $out" "phony $out" true ["depfile"].

Definition minibpFile : string := filepath.Join ["$BinDir"; "minibp"].

Definition docsDir : string := filepath.Join [bootstrapDir; "docs"].

(** ** The two module types *)

Module goPackage.

Record Properties := {
  PkgPath : string;
  Srcs : list string;
  TestSrcs : list string;
  Plugin : bool;
}.

Record t := {
  properties : Properties;
  pkgRoot : string;
  archiveFile : string;
  testArchiveFile : string;
  config : Config;
  buildStage : Stage;
}.

(** The module as [newGoPackageModuleFactory] creates it, once the
    engine has filled in the declared properties. *)
Definition new (config : Config) (props : Properties) : t :=
  {| properties := props;
     pkgRoot := "";
     archiveFile := "";
     testArchiveFile := "";
     config := config;
     buildStage := StagePrimary |}.

Definition GoPkgPath (g : t) : string := PkgPath (properties g).
Definition GoPkgRoot (g : t) : string := pkgRoot g.
Definition GoPackageTarget (g : t) : string := archiveFile g.
Definition GoTestTarget (g : t) : string := testArchiveFile g.
Definition BuildStage (g : t) : Stage := buildStage g.
Definition IsPlugin (g : t) : bool := Plugin (properties g).

Definition SetBuildStage (g : t) (s : Stage) : t :=
  {| properties := properties g;
     pkgRoot := pkgRoot g;
     archiveFile := archiveFile g;
     testArchiveFile := testArchiveFile g;
     config := config g;
     buildStage := s |}.

Definition setPkgRoot (g : t) (p : string) : t :=
  {| properties := properties g;
     pkgRoot := p;
     archiveFile := archiveFile g;
     testArchiveFile := testArchiveFile g;
     config := config g;
     buildStage := buildStage g |}.

Definition setArchiveFile (g : t) (p : string) : t :=
  {| properties := properties g;
     pkgRoot := pkgRoot g;
     archiveFile := p;
     testArchiveFile := testArchiveFile g;
     config := config g;
     buildStage := buildStage g |}.

Definition setTestArchiveFile (g : t) (p : string) : t :=
  {| properties := properties g;
     pkgRoot := pkgRoot g;
     archiveFile := archiveFile g;
     testArchiveFile := p;
     config := config g;
     buildStage := buildStage g |}.

End goPackage.

Module goBinary.

Record Properties := {
  Srcs : list string;
  TestSrcs : list string;
  PrimaryBuilder : bool;
}.

Record t := {
  properties : Properties;
  testArchiveFile : string;
  config : Config;
  buildStage : Stage;
}.

(** The module as [newGoBinaryModuleFactory] creates it. *)
Definition new (config : Config) (buildStage : Stage) (props : Properties) : t :=
  {| properties := props;
     testArchiveFile := "";
     config := config;
     buildStage := buildStage |}.

Definition GoTestTarget (g : t) : string := testArchiveFile g.
Definition BuildStage (g : t) : Stage := buildStage g.

Definition SetBuildStage (g : t) (s : Stage) : t :=
  {| properties := properties g;
     testArchiveFile := testArchiveFile g;
     config := config g;
     buildStage := s |}.

Definition setTestArchiveFile (g : t) (p : string) : t :=
  {| properties := properties g;
     testArchiveFile := p;
     config := config g;
     buildStage := buildStage g |}.

End goBinary.

(** A [blueprint.Module] value: one of the two module types of this
    package, or a module of a type declared elsewhere, which has none of
    the methods the interfaces below ask for. *)
Inductive Module :=
| GoPackage (g : goPackage.t)
| GoBinary (g : goBinary.t)
| OtherModule.

(** ** Interfaces

    An interface value is the record of its methods, already applied to
    the receiver; the type assertion [module.(I)] is a function to
    [option]. *)

Module bootstrapGoCore.
Record t := { BuildStage : Stage; SetBuildStage : Stage -> Module }.
End bootstrapGoCore.

Definition asBootstrapGoCore (module : Module) : option bootstrapGoCore.t :=
  match module with
  | GoPackage g =>
      Some {| bootstrapGoCore.BuildStage := goPackage.BuildStage g;
              bootstrapGoCore.SetBuildStage :=
                fun s => GoPackage (goPackage.SetBuildStage g s) |}
  | GoBinary g =>
      Some {| bootstrapGoCore.BuildStage := goBinary.BuildStage g;
              bootstrapGoCore.SetBuildStage :=
                fun s => GoBinary (goBinary.SetBuildStage g s) |}
  | OtherModule => None
  end.

Module goPackageProducer.
Record t := { GoPkgRoot : string; GoPackageTarget : string }.
End goPackageProducer.

Definition asGoPackageProducer (module : Module) : option goPackageProducer.t :=
  match module with
  | GoPackage g =>
      Some {| goPackageProducer.GoPkgRoot := goPackage.GoPkgRoot g;
              goPackageProducer.GoPackageTarget := goPackage.GoPackageTarget g |}
  | _ => None
  end.

Definition isGoPackageProducer (module : Module) : bool :=
  bool_decide (is_Some (asGoPackageProducer module)).

Module goTestProducer.
Record t := { GoTestTarget : string; BuildStage : Stage }.
End goTestProducer.

Definition asGoTestProducer (module : Module) : option goTestProducer.t :=
  match module with
  | GoPackage g =>
      Some {| goTestProducer.GoTestTarget := goPackage.GoTestTarget g;
              goTestProducer.BuildStage := goPackage.BuildStage g |}
  | GoBinary g =>
      Some {| goTestProducer.GoTestTarget := goBinary.GoTestTarget g;
              goTestProducer.BuildStage := goBinary.BuildStage g |}
  | OtherModule => None
  end.

Definition isGoTestProducer (module : Module) : bool :=
  bool_decide (is_Some (asGoTestProducer module)).

Module goPluginProvider.
Record t := { GoPkgPath : string; IsPlugin : bool }.
End goPluginProvider.

Definition asGoPluginProvider (module : Module) : option goPluginProvider.t :=
  match module with
  | GoPackage g =>
      Some {| goPluginProvider.GoPkgPath := goPackage.GoPkgPath g;
              goPluginProvider.IsPlugin := goPackage.IsPlugin g |}
  | _ => None
  end.

Definition isGoPlugin (module : Module) : bool :=
  match asGoPluginProvider module with
  | Some plugin => goPluginProvider.IsPlugin plugin
  | None => false
  end.

Definition isBootstrapModule (module : Module) : bool :=
  match module with
  | GoPackage _ | GoBinary _ => true
  | OtherModule => false
  end.

Definition isBootstrapBinaryModule (module : Module) : bool :=
  match module with
  | GoBinary _ => true
  | _ => false
  end.

(** ** Module contexts

    What a [blueprint.ModuleContext] offers to [GenerateBuildActions]: the
    module's name and directory, the modules that the engine's depth-first
    walk of the dependencies visits (in visiting order), and the two sinks,
    for build actions and for error reports. *)

Module ModuleContext.

Record t := {
  ModuleName : string;
  ModuleDir : string;
  deps : list Module;
  builds : list BuildParams;
  errs : list string;
}.

Definition start (name dir : string) (deps : list Module) : t :=
  {| ModuleName := name; ModuleDir := dir; deps := deps;
     builds := []; errs := [] |}.

(** [ctx.Build(pctx, params)] *)
Definition Build (ctx : t) (params : BuildParams) : t :=
  {| ModuleName := ModuleName ctx;
     ModuleDir := ModuleDir ctx;
     deps := deps ctx;
     builds := builds ctx ++ [params];
     errs := errs ctx |}.

(** [ctx.ModuleErrorf(...)], with the message already formatted *)
Definition ModuleErrorf (ctx : t) (msg : string) : t :=
  {| ModuleName := ModuleName ctx;
     ModuleDir := ModuleDir ctx;
     deps := deps ctx;
     builds := builds ctx;
     errs := errs ctx ++ [msg] |}.

(** [ctx.VisitDepsDepthFirstIf(pred, visit)]; the variables that the
    visiting closure updates are the accumulator. *)
Definition VisitDepsDepthFirstIf {A} (ctx : t) (pred : Module -> bool)
    (visit : A -> Module -> A) (acc : A) : A :=
  fold_left visit (List.filter pred (deps ctx)) acc.

End ModuleContext.

Import ModuleContext (Build, ModuleErrorf, VisitDepsDepthFirstIf).

Definition packageRoot (ctx : ModuleContext.t) : string :=
  filepath.Join [bootstrapDir; ModuleContext.ModuleName ctx; "pkg"].

Definition testRoot (ctx : ModuleContext.t) : string :=
  filepath.Join [bootstrapDir; ModuleContext.ModuleName ctx; "test"].

Definition moduleSrcDir (ctx : ModuleContext.t) : string :=
  filepath.Join ["$srcDir"; ModuleContext.ModuleDir ctx].

Definition moduleObjDir (ctx : ModuleContext.t) : string :=
  filepath.Join [bootstrapDir; ModuleContext.ModuleName ctx; "obj"].

(** ** Emitting actions *)

(** The [-I]/[-L] style flag and the archive that one visited
    dependency contributes. *)
Definition visitFlag (flag : string) (acc : list string) (module : Module)
  : list string :=
  match asGoPackageProducer module with
  | Some dep => acc ++ [flag +:+ goPackageProducer.GoPkgRoot dep]
  | None => acc
  end.

Definition visitTarget (acc : list string) (module : Module) : list string :=
  match asGoPackageProducer module with
  | Some dep => acc ++ [goPackageProducer.GoPackageTarget dep]
  | None => acc
  end.

Definition buildGoPackage (ctx : ModuleContext.t) (pkgRoot pkgPath archiveFile : string)
    (srcs genSrcs orderDeps : list string) : ModuleContext.t :=
  let srcDir := moduleSrcDir ctx in
  let srcFiles := pathtools.PrefixPaths srcs srcDir in
  let srcFiles := srcFiles ++ genSrcs in
  let '(incFlags, deps) :=
    VisitDepsDepthFirstIf ctx isGoPackageProducer
      (fun '(incFlags, deps) module =>
         (visitFlag "-I " incFlags module, visitTarget deps module))
      ([], ["$compileCmd"]) in
  let compileArgs : gmap string string := {[ "pkgPath" := pkgPath ]} in
  let compileArgs :=
    if Nat.ltb 0 (List.length incFlags)
    then <[ "incFlags" := strings.Join incFlags " " ]> compileArgs
    else compileArgs in
  Build ctx {| Rule := compile;
               Outputs := [archiveFile];
               Inputs := srcFiles;
               OrderOnly := orderDeps;
               Implicits := deps;
               Args := compileArgs |}.

Definition buildGoTest (ctx : ModuleContext.t) (testRoot testPkgArchive pkgPath : string)
    (srcs genSrcs testSrcs : list string) : ModuleContext.t * list string :=
  match testSrcs with
  | [] => (ctx, [])
  | _ :: _ =>
      let srcDir := moduleSrcDir ctx in
      let testFiles := pathtools.PrefixPaths testSrcs srcDir in
      let mainFile := filepath.Join [testRoot; "test.go"] in
      let testArchive := filepath.Join [testRoot; "test.a"] in
      let testFile := filepath.Join [testRoot; "test"] in
      let testPassed := filepath.Join [testRoot; "test.passed"] in
      let ctx := buildGoPackage ctx testRoot pkgPath testPkgArchive
                   (srcs ++ testSrcs) genSrcs [] in
      let ctx := Build ctx {| Rule := goTestMain;
                              Outputs := [mainFile];
                              Inputs := testFiles;
                              Implicits := ["$goTestMainCmd"];
                              OrderOnly := [];
                              Args := {[ "pkg" := pkgPath ]} |} in
      let libDirFlags :=
        VisitDepsDepthFirstIf ctx isGoPackageProducer (visitFlag "-L ")
          ["-L " +:+ testRoot] in
      let ctx := Build ctx {| Rule := compile;
                              Outputs := [testArchive];
                              Inputs := [mainFile];
                              Implicits := ["$compileCmd"; testPkgArchive];
                              OrderOnly := [];
                              Args := <[ "incFlags" := "-I " +:+ testRoot ]>
                                        {[ "pkgPath" := "main" ]} |} in
      let ctx := Build ctx {| Rule := link;
                              Outputs := [testFile];
                              Inputs := [testArchive];
                              Implicits := ["$linkCmd"];
                              OrderOnly := [];
                              Args := {[ "libDirFlags" :=
                                           strings.Join libDirFlags " " ]} |} in
      let ctx := Build ctx {| Rule := test;
                              Outputs := [testPassed];
                              Inputs := [testFile];
                              Implicits := [];
                              OrderOnly := [];
                              Args := <[ "pkgSrcDir" :=
                                           filepath.Dir (hd "" testFiles) ]>
                                        {[ "pkg" := pkgPath ]} |} in
      (ctx, [testPassed])
  end.

(** One action of the built-in phony rule per listed path. *)
Definition phonyEach (ctx : ModuleContext.t) (paths : list string) : ModuleContext.t :=
  fold_left
    (fun ctx path => Build ctx {| Rule := blueprint.Phony;
                                  Outputs := [path];
                                  Inputs := [];
                                  Implicits := [];
                                  OrderOnly := [];
                                  Args := ∅ |})
    paths ctx.

Definition phonyGoTarget (ctx : ModuleContext.t) (target : string)
    (srcs gensrcs intermediates : list string) : ModuleContext.t :=
  let depTargets := VisitDepsDepthFirstIf ctx isGoPackageProducer visitTarget [] in
  let moduleDir := ModuleContext.ModuleDir ctx in
  let srcs := pathtools.PrefixPaths srcs (filepath.Join ["$srcDir"; moduleDir]) in
  let srcs := srcs ++ gensrcs in
  let ctx := Build ctx {| Rule := phony;
                          Outputs := [target];
                          Inputs := srcs;
                          Implicits := depTargets;
                          OrderOnly := [];
                          Args := ∅ |} in
  let ctx := phonyEach ctx srcs in
  phonyEach ctx intermediates.

(** [(g *goPackage) GenerateBuildActions]: the module with its derived
    fields filled in, and the context with what was emitted. *)
Definition goPackage_GenerateBuildActions (g : goPackage.t) (ctx : ModuleContext.t)
  : goPackage.t * ModuleContext.t :=
  let name := ModuleContext.ModuleName ctx in
  let props := goPackage.properties g in
  if String.eqb (goPackage.PkgPath props) "" then
    (g, ModuleErrorf ctx
          ("module " +:+ name +:+ " did not specify a valid pkgPath"))
  else
    let hasTests :=
      Nat.ltb 0 (List.length (goPackage.TestSrcs props))
      && runGoTests (goPackage.config g) in
    let g := goPackage.setPkgRoot g (packageRoot ctx) in
    let g := goPackage.setArchiveFile g
               (filepath.Join [goPackage.pkgRoot g;
                               filepath.FromSlash (goPackage.PkgPath props) +:+ ".a"]) in
    let g := if hasTests
             then goPackage.setTestArchiveFile g
                    (filepath.Join [testRoot ctx;
                                    filepath.FromSlash (goPackage.PkgPath props) +:+ ".a"])
             else g in
    if bool_decide (stage (goPackage.config g) = goPackage.BuildStage g) then
      let '(ctx, deps) :=
        if runGoTests (goPackage.config g)
        then buildGoTest ctx (testRoot ctx) (goPackage.testArchiveFile g)
               (goPackage.PkgPath props) (goPackage.Srcs props) []
               (goPackage.TestSrcs props)
        else (ctx, []) in
      (g, buildGoPackage ctx (goPackage.pkgRoot g) (goPackage.PkgPath props)
            (goPackage.archiveFile g) (goPackage.Srcs props) [] deps)
    else if bool_decide (stage (goPackage.config g) ≠ StageBootstrap) then
      let ctx := if hasTests
                 then phonyGoTarget ctx (goPackage.testArchiveFile g)
                        (goPackage.TestSrcs props) [] []
                 else ctx in
      (g, phonyGoTarget ctx (goPackage.archiveFile g) (goPackage.Srcs props) [] [])
    else (g, ctx).

(** [(g *goBinary) DynamicDependencies], reading the process-wide list. *)
Definition goBinary_DynamicDependencies (primaryBuilderPlugins : list string)
    (g : goBinary.t) : list string :=
  if goBinary.PrimaryBuilder (goBinary.properties g)
  then primaryBuilderPlugins
  else [].

Definition visitPlugin (plugins : list string) (module : Module) : list string :=
  match asGoPluginProvider module with
  | Some plugin => plugins ++ [goPluginProvider.GoPkgPath plugin]
  | None => plugins
  end.

(** [(g *goBinary) GenerateBuildActions], reading the process-wide list. *)
Definition goBinary_GenerateBuildActions (primaryBuilderPlugins : list string)
    (g : goBinary.t) (ctx : ModuleContext.t) : goBinary.t * ModuleContext.t :=
  let name := ModuleContext.ModuleName ctx in
  let objDir := moduleObjDir ctx in
  let archiveFile := filepath.Join [objDir; name +:+ ".a"] in
  let aoutFile := filepath.Join [objDir; "a.out"] in
  let binaryFile := filepath.Join ["$BinDir"; name] in
  let props := goBinary.properties g in
  let hasTests :=
    Nat.ltb 0 (List.length (goBinary.TestSrcs props))
    && runGoTests (goBinary.config g) in
  let g := if hasTests
           then goBinary.setTestArchiveFile g
                  (filepath.Join [testRoot ctx; name +:+ ".a"])
           else g in
  let '(pluginSrc, genSrcs) :=
    if goBinary.PrimaryBuilder props
       && Nat.ltb 0 (List.length primaryBuilderPlugins)
    then let pluginSrc := filepath.Join [objDir; "plugin.go"] in
         (pluginSrc, [pluginSrc])
    else ("", []) in
  if bool_decide (stage (goBinary.config g) = goBinary.BuildStage g) then
    let ctx :=
      if negb (String.eqb pluginSrc "") then
        let plugins := VisitDepsDepthFirstIf ctx isGoPlugin visitPlugin [] in
        Build ctx {| Rule := pluginGenSrc;
                     Outputs := [pluginSrc];
                     Inputs := [];
                     Implicits := ["$pluginGenSrcCmd"];
                     OrderOnly := [];
                     Args := {[ "plugins" := strings.Join plugins " " ]} |}
      else ctx in
    let '(ctx, deps) :=
      if runGoTests (goBinary.config g)
      then buildGoTest ctx (testRoot ctx) (goBinary.testArchiveFile g)
             name (goBinary.Srcs props) genSrcs (goBinary.TestSrcs props)
      else (ctx, []) in
    let ctx := buildGoPackage ctx objDir name archiveFile
                 (goBinary.Srcs props) genSrcs deps in
    let libDirFlags :=
      VisitDepsDepthFirstIf ctx isGoPackageProducer (visitFlag "-L ") [] in
    let linkArgs : gmap string string :=
      if Nat.ltb 0 (List.length libDirFlags)
      then {[ "libDirFlags" := strings.Join libDirFlags " " ]}
      else ∅ in
    let ctx := Build ctx {| Rule := link;
                            Outputs := [aoutFile];
                            Inputs := [archiveFile];
                            Implicits := ["$linkCmd"];
                            OrderOnly := [];
                            Args := linkArgs |} in
    (g, Build ctx {| Rule := cp;
                     Outputs := [binaryFile];
                     Inputs := [aoutFile];
                     Implicits := [];
                     OrderOnly := [];
                     Args := ∅ |})
  else if bool_decide (stage (goBinary.config g) ≠ StageBootstrap) then
    let ctx := if hasTests
               then phonyGoTarget ctx (goBinary.testArchiveFile g)
                      (goBinary.TestSrcs props) [] []
               else ctx in
    let intermediates := [aoutFile; archiveFile] in
    (g, phonyGoTarget ctx binaryFile (goBinary.Srcs props) genSrcs intermediates)
  else (g, ctx).

(** ** The mutators

    The engine keeps the modules by name; a mutator that writes to a
    dependency writes to the entry of that name. *)

(** [primaryBuilderPluginFinder], for the module [module] named
    [moduleName], threading the process-wide list. *)
Definition primaryBuilderPluginFinder (module : Module) (moduleName : string)
    (primaryBuilderPlugins : list string) : list string :=
  match module with
  | GoPackage pkg =>
      if goPackage.Plugin (goPackage.properties pkg)
      then primaryBuilderPlugins ++ [moduleName]
      else primaryBuilderPlugins
  | _ => primaryBuilderPlugins
  end.

(** [mctx.VisitDirectDeps(visit)], for a visitor that may write to the
    module it is given. *)
Definition VisitDirectDeps (directDeps : list string) (visit : Module -> Module)
    (mods : gmap string Module) : gmap string Module :=
  fold_left (fun mods dep => alter visit dep mods) directDeps mods.

Definition forceBootstrap (dep : Module) : Module :=
  match asBootstrapGoCore dep with
  | Some m => bootstrapGoCore.SetBuildStage m StageBootstrap
  | None => dep
  end.

(** [propagateStageBootstrap], for the module named [self] with the
    direct dependencies [directDeps]. *)
Definition propagateStageBootstrap (self : string) (directDeps : list string)
    (mods : gmap string Module) : gmap string Module :=
  match mods !! self ≫= asBootstrapGoCore with
  | Some core =>
      if bool_decide (bootstrapGoCore.BuildStage core ≠ StageBootstrap)
      then mods
      else VisitDirectDeps directDeps forceBootstrap mods
  | None => mods
  end.

(** ** The singleton

    A [blueprint.SingletonContext] sees every module of the graph; a
    module pointer is the pair of the module's name and its value, so that
    [ctx.ModuleName(module)] is the first component. *)

Module SingletonContext.

Inductive error :=
| Error (msg : string)
| ModuleError (moduleName msg : string).

Record t := {
  modules : list (string * Module);
  builds : list BuildParams;
  errs : list error;
  buildDir : option string;
}.

Definition start (modules : list (string * Module)) : t :=
  {| modules := modules; builds := []; errs := []; buildDir := None |}.

Definition Build (ctx : t) (params : BuildParams) : t :=
  {| modules := modules ctx;
     builds := builds ctx ++ [params];
     errs := errs ctx;
     buildDir := buildDir ctx |}.

Definition Errorf (ctx : t) (msg : string) : t :=
  {| modules := modules ctx;
     builds := builds ctx;
     errs := errs ctx ++ [Error msg];
     buildDir := buildDir ctx |}.

Definition ModuleErrorf (ctx : t) (moduleName msg : string) : t :=
  {| modules := modules ctx;
     builds := builds ctx;
     errs := errs ctx ++ [ModuleError moduleName msg];
     buildDir := buildDir ctx |}.

Definition SetBuildDir (ctx : t) (dir : string) : t :=
  {| modules := modules ctx;
     builds := builds ctx;
     errs := errs ctx;
     buildDir := Some dir |}.

Definition VisitAllModulesIf {A} (ctx : t) (pred : Module -> bool)
    (visit : A -> string * Module -> A) (acc : A) : A :=
  fold_left visit (List.filter (fun m => pred m.2) (modules ctx)) acc.

End SingletonContext.

Record singleton := { singleton_config : Config }.

(** The three lists that the first visit of the singleton fills. *)
Record binaries := {
  primaryBuilders : list (string * goBinary.t);
  rebootstrapDeps : list string;
  primaryRebootstrapDeps : list string;
}.

Definition visitBinary (acc : binaries) (module : string * Module) : binaries :=
  match module with
  | (binaryModuleName, GoBinary binaryModule) =>
      let binaryModulePath := filepath.Join ["$BinDir"; binaryModuleName] in
      let boot := bool_decide (goBinary.BuildStage binaryModule = StageBootstrap) in
      {| rebootstrapDeps :=
           if boot then rebootstrapDeps acc ++ [binaryModulePath]
           else rebootstrapDeps acc;
         primaryRebootstrapDeps :=
           if boot then primaryRebootstrapDeps acc
           else primaryRebootstrapDeps acc ++ [binaryModulePath];
         primaryBuilders :=
           if goBinary.PrimaryBuilder (goBinary.properties binaryModule)
           then primaryBuilders acc ++ [(binaryModuleName, binaryModule)]
           else primaryBuilders acc |}
  | _ => acc
  end.

Definition visitTest (acc : list string * list string) (module : string * Module)
  : list string * list string :=
  match asGoTestProducer module.2 with
  | Some testModule =>
      let target := goTestProducer.GoTestTarget testModule in
      if negb (String.eqb target "") then
        if bool_decide (goTestProducer.BuildStage testModule = StageBootstrap)
        then (acc.1 ++ [target], acc.2)
        else (acc.1, acc.2 ++ [target])
      else acc
  | None => acc
  end.

Definition contextRule (name command description depfile : string)
    (generator : bool) (argNames : list string) : blueprint.Rule :=
  blueprint.ContextRule name
    {| blueprint.Command := command;
       blueprint.Description := description;
       blueprint.Depfile := depfile;
       blueprint.Generator := generator |}
    argNames.

Definition build (rule : blueprint.Rule) (outputs inputs implicits : list string)
    (args : gmap string string) : BuildParams :=
  {| Rule := rule; Outputs := outputs; Inputs := inputs;
     Implicits := implicits; OrderOnly := []; Args := args |}.

Definition runTestsArgs (s : singleton) (args : gmap string string)
  : gmap string string :=
  if runGoTests (singleton_config s) then <[ "runTests" := "-t" ]> args else args.

(** The wiring that the singleton emits once the primary builder is
    known: the second half of [(s *singleton) GenerateBuildActions]. *)
Definition singleton_wire (s : singleton) (ctx : SingletonContext.t)
    (primaryBuilderName primaryBuilderExtraFlags : string)
    (rebootstrapDeps primaryRebootstrapDeps : list string) : SingletonContext.t :=
  let Build := SingletonContext.Build in
  let primaryBuilderFile := filepath.Join ["$BinDir"; primaryBuilderName] in
  let primaryBuilderExtraFlags :=
    if runGoTests (singleton_config s)
    then primaryBuilderExtraFlags +:+ " -t"
    else primaryBuilderExtraFlags in
  let topLevelBlueprints :=
    filepath.Join ["$srcDir";
                   filepath.Base (topLevelBlueprintsFile (singleton_config s))] in
  let rebootstrapDeps := rebootstrapDeps ++ [topLevelBlueprints] in
  let primaryRebootstrapDeps := primaryRebootstrapDeps ++ [topLevelBlueprints] in
  let mainNinjaFile := filepath.Join [bootstrapDir; "main.ninja.in"] in
  let mainNinjaTimestampFile := mainNinjaFile +:+ ".timestamp" in
  let mainNinjaTimestampDepFile := mainNinjaTimestampFile +:+ ".d" in
  let primaryBuilderNinjaFile := filepath.Join [bootstrapDir; "primary.ninja.in"] in
  let primaryBuilderNinjaTimestampFile := primaryBuilderNinjaFile +:+ ".timestamp" in
  let primaryBuilderNinjaTimestampDepFile := primaryBuilderNinjaTimestampFile +:+ ".d" in
  let bootstrapNinjaFile := filepath.Join [bootstrapDir; "bootstrap.ninja.in"] in
  let docsFile := filepath.Join [docsDir; primaryBuilderName +:+ ".html"] in
  let primaryRebootstrapDeps := primaryRebootstrapDeps ++ [docsFile] in
  let '(rebootstrapDeps, primaryRebootstrapDeps) :=
    SingletonContext.VisitAllModulesIf ctx isGoTestProducer visitTest
      (rebootstrapDeps, primaryRebootstrapDeps) in
  let buildNinjaIn := filepath.Join [bootstrapDir; "build.ninja.in"] in
  let ctx :=
    match stage (singleton_config s) with
    | StageBootstrap =>
        let ctx := SingletonContext.SetBuildDir ctx miniBootstrapDir in
        let primarybp :=
          contextRule "primarybp"
            (minibpFile +:+ " --build-primary $runTests -m $bootstrapManifest " +:+
             "--timestamp $timestamp --timestampdep $timestampdep " +:+
             "-b $buildDir -d $outfile.d -o $outfile $in")
            "minibp $outfile" "$outfile.d" false
            ["runTests"; "timestamp"; "timestampdep"; "outfile"] in
        let args : gmap string string :=
          <[ "timestampdep" := primaryBuilderNinjaTimestampDepFile ]>
            (<[ "timestamp" := primaryBuilderNinjaTimestampFile ]>
               {[ "outfile" := primaryBuilderNinjaFile ]}) in
        let ctx := Build ctx
          (build primarybp
             [primaryBuilderNinjaFile; primaryBuilderNinjaTimestampFile]
             [topLevelBlueprints] rebootstrapDeps (runTestsArgs s args)) in
        let minibp :=
          contextRule "minibp"
            (minibpFile +:+ " $runTests -m $bootstrapManifest " +:+
             "-b $buildDir -d $out.d -o $out $in")
            "minibp $out" "$out.d" true ["runTests"] in
        let ctx := Build ctx
          (build minibp [bootstrapNinjaFile] [topLevelBlueprints]
             ["$bootstrapManifest"; minibpFile] (runTestsArgs s ∅)) in
        let notAFile := filepath.Join [bootstrapDir; "notAFile"] in
        let ctx := Build ctx (build blueprint.Phony [notAFile] [] [] ∅) in
        Build ctx
          (build chooseStage [buildNinjaIn]
             [bootstrapNinjaFile; primaryBuilderNinjaFile]
             ["$chooseStageCmd"; "$bootstrapManifest"; notAFile]
             {[ "current" := bootstrapNinjaFile ]})
    | StagePrimary =>
        let ctx := SingletonContext.SetBuildDir ctx bootstrapDir in
        let bigbp :=
          contextRule "bigbp"
            (primaryBuilderFile +:+ " " +:+ primaryBuilderExtraFlags +:+
             " -m $bootstrapManifest " +:+
             "--timestamp $timestamp --timestampdep $timestampdep " +:+
             "-b $buildDir -d $outfile.d -o $outfile $in")
            (primaryBuilderName +:+ " $outfile") "$outfile.d" false
            ["timestamp"; "timestampdep"; "outfile"] in
        let ctx := Build ctx
          (build bigbp [mainNinjaFile; mainNinjaTimestampFile]
             [topLevelBlueprints] primaryRebootstrapDeps
             (<[ "outfile" := mainNinjaFile ]>
                (<[ "timestampdep" := mainNinjaTimestampDepFile ]>
                   {[ "timestamp" := mainNinjaTimestampFile ]}))) in
        let bigbpDocs :=
          contextRule "bigbpDocs"
            (primaryBuilderFile +:+ " " +:+ primaryBuilderExtraFlags +:+
             " -b $buildDir --docs $out " +:+ topLevelBlueprints)
            (primaryBuilderName +:+ " docs $out") "" false [] in
        let ctx := Build ctx
          (build bigbpDocs [docsFile] [] [primaryBuilderFile] ∅) in
        let ctx := Build ctx
          (build touch [primaryBuilderNinjaTimestampFile] [] rebootstrapDeps
             (<[ "generator" := "true" ]>
                {[ "depfile" := primaryBuilderNinjaTimestampDepFile ]})) in
        let notAFile := filepath.Join [bootstrapDir; "notAFile"] in
        let ctx := Build ctx (build blueprint.Phony [notAFile] [] [] ∅) in
        let ctx := Build ctx
          (build chooseStage [buildNinjaIn]
             [bootstrapNinjaFile; primaryBuilderNinjaFile; mainNinjaFile]
             ["$chooseStageCmd"; "$bootstrapManifest"; notAFile;
              primaryBuilderNinjaTimestampFile]
             {[ "current" := primaryBuilderNinjaFile ]}) in
        Build ctx (build blueprint.Phony [bootstrapNinjaFile] [] [] ∅)
    | StageMain =>
        let ctx := SingletonContext.SetBuildDir ctx "${buildDir}" in
        let ctx := Build ctx
          (build touch [primaryBuilderNinjaTimestampFile] [] rebootstrapDeps
             (<[ "generator" := "true" ]>
                {[ "depfile" := primaryBuilderNinjaTimestampDepFile ]})) in
        let ctx := Build ctx
          (build touch [mainNinjaTimestampFile] [] primaryRebootstrapDeps
             (<[ "generator" := "true" ]>
                {[ "depfile" := mainNinjaTimestampDepFile ]})) in
        let ctx := Build ctx
          (build chooseStage [buildNinjaIn]
             [bootstrapNinjaFile; primaryBuilderNinjaFile; mainNinjaFile]
             ["$chooseStageCmd"; "$bootstrapManifest";
              primaryBuilderNinjaTimestampFile; mainNinjaTimestampFile]
             (<[ "generator" := "true" ]> {[ "current" := mainNinjaFile ]})) in
        let ctx := Build ctx
          (build blueprint.Phony [mainNinjaFile; docsFile] [] [] ∅) in
        if String.eqb primaryBuilderName "minibp" then
          let finalMinibp := filepath.Join ["$buildDir"; "bin"; primaryBuilderName] in
          Build ctx (build cp [finalMinibp] [primaryBuilderFile] [] ∅)
        else ctx
    end in
  Build ctx
    (build bootstrap ["$buildDir/build.ninja"] [buildNinjaIn] ["$bootstrapCmd"] ∅).

(** [(s *singleton) GenerateBuildActions] *)
Definition singleton_GenerateBuildActions (s : singleton) (ctx : SingletonContext.t)
  : SingletonContext.t :=
  let found :=
    SingletonContext.VisitAllModulesIf ctx isBootstrapBinaryModule visitBinary
      {| primaryBuilders := []; rebootstrapDeps := [];
         primaryRebootstrapDeps := [] |} in
  match primaryBuilders found with
  | [] =>
      singleton_wire s ctx "minibp" "-p"
        (rebootstrapDeps found) (primaryRebootstrapDeps found)
  | [primaryBuilder] =>
      singleton_wire s ctx primaryBuilder.1 ""
        (rebootstrapDeps found) (primaryRebootstrapDeps found)
  | _ =>
      let ctx := SingletonContext.Errorf ctx
                   "multiple primary builder modules present:" in
      fold_left
        (fun ctx primaryBuilder =>
           SingletonContext.ModuleErrorf ctx primaryBuilder.1
             ("<-- module " +:+ primaryBuilder.1))
        (primaryBuilders found) ctx
  end.

(** ** The passes of the graph engine

    The engine itself is outside this package.  What the passes below
    need from it is the list of modules in the order in which a pass visits
    them, each with its name, its directory, its direct dependencies and
    the modules that a depth-first walk from it visits. *)

Record moduleInfo := {
  name : string;
  dir : string;
  directDeps : list string;
  depsDepthFirst : list string;
}.

(** Modelled from the spec: the engine's early-mutator pass is outside
    this file; it applies the mutator to every module of the graph, one
    after the other in traversal order. *)
Definition runPluginFinder (order : list moduleInfo) (mods : gmap string Module)
    (primaryBuilderPlugins : list string) : list string :=
  fold_left
    (fun plugins mi =>
       match mods !! name mi with
       | Some module => primaryBuilderPluginFinder module (name mi) plugins
       | None => plugins
       end)
    order primaryBuilderPlugins.

(** Modelled from the spec: the engine's top-down mutator pass is outside
    this file; it applies the mutator to every module of the graph, one
    after the other in the order given. *)
Definition runStagePropagation (order : list moduleInfo) (mods : gmap string Module)
  : gmap string Module :=
  fold_left
    (fun mods mi => propagateStageBootstrap (name mi) (directDeps mi) mods)
    order mods.

(** The method call [module.GenerateBuildActions(ctx)] on a module value;
    a module of a foreign type emits nothing that this package knows of. *)
Definition Module_GenerateBuildActions (primaryBuilderPlugins : list string)
    (module : Module) (ctx : ModuleContext.t) : Module * ModuleContext.t :=
  match module with
  | GoPackage g =>
      let '(g, ctx) := goPackage_GenerateBuildActions g ctx in (GoPackage g, ctx)
  | GoBinary g =>
      let '(g, ctx) := goBinary_GenerateBuildActions primaryBuilderPlugins g ctx in
      (GoBinary g, ctx)
  | OtherModule => (module, ctx)
  end.

(** What a generation pass has produced so far: the modules, the actions
    and the errors, each error with the module it was reported against. *)
Record generation := {
  gen_mods : gmap string Module;
  gen_builds : list BuildParams;
  gen_errs : list (string * string);
}.

(** Modelled from the spec: the engine's per-module generation loop is
    outside this file; every module gets a context of its own, and what it
    emits and reports is collected before the next module is visited. *)
Definition generateModule (primaryBuilderPlugins : list string)
    (st : generation) (mi : moduleInfo) : generation :=
  match gen_mods st !! name mi with
  | None => st
  | Some module =>
      let deps := omap (fun dep => gen_mods st !! dep) (depsDepthFirst mi) in
      let ctx := ModuleContext.start (name mi) (dir mi) deps in
      let '(module, ctx) :=
        Module_GenerateBuildActions primaryBuilderPlugins module ctx in
      {| gen_mods := <[ name mi := module ]> (gen_mods st);
         gen_builds := gen_builds st ++ ModuleContext.builds ctx;
         gen_errs := gen_errs st
                     ++ map (pair (name mi)) (ModuleContext.errs ctx) |}
  end.

Definition generateModuleBuildActions (primaryBuilderPlugins : list string)
    (order : list moduleInfo) (st : generation) : generation :=
  fold_left (generateModule primaryBuilderPlugins) order st.

(** ** Notions used to state the properties *)

(** The archives and the package roots of the Package modules among the
    visited dependencies, in visiting order. *)
Definition packageTargets (deps : list Module) : list string :=
  omap (fun m => goPackageProducer.GoPackageTarget <$> asGoPackageProducer m) deps.

Definition packageRoots (deps : list Module) : list string :=
  omap (fun m => goPackageProducer.GoPkgRoot <$> asGoPackageProducer m) deps.

(** The package paths of the plugin-flagged Package modules among the
    visited dependencies. *)
Definition pluginPkgPaths (deps : list Module) : list string :=
  omap (fun m => match m with
                 | GoPackage g =>
                     if goPackage.IsPlugin g then Some (goPackage.GoPkgPath g)
                     else None
                 | _ => None
                 end) deps.

(** The always-up-to-date marker action keyed on one path. *)
Definition marker (path : string) : BuildParams :=
  build blueprint.Phony [path] [] [] ∅.

(** The compile action for an archive, in closed form: the sources
    qualified with the source directory, then the generated sources; the
    compiler and every dependency's archive as implicit dependencies; one
    include flag per dependency, and no [incFlags] argument without any. *)
Definition compileArgs (pkgPath : string) (roots : list string) : gmap string string :=
  match roots with
  | [] => {[ "pkgPath" := pkgPath ]}
  | _ => <[ "incFlags" := strings.Join (map (String.append "-I ") roots) " " ]>
           {[ "pkgPath" := pkgPath ]}
  end.

Definition compileAction (srcDir : string) (deps : list Module)
    (pkgPath archiveFile : string) (srcs genSrcs orderDeps : list string)
  : BuildParams :=
  {| Rule := compile;
     Outputs := [archiveFile];
     Inputs := pathtools.PrefixPaths srcs srcDir ++ genSrcs;
     Implicits := "$compileCmd" :: packageTargets deps;
     OrderOnly := orderDeps;
     Args := compileArgs pkgPath (packageRoots deps) |}.

(** The sentinel that the test pipeline rooted at [testRoot] touches. *)
Definition testPassedFile (testRoot : string) : string :=
  filepath.Join [testRoot; "test.passed"].

(** The five actions of the test pipeline, in closed form. *)
Definition testPipeline (srcDir : string) (deps : list Module)
    (testRoot testPkgArchive pkgPath : string)
    (srcs genSrcs testSrcs : list string) : list BuildParams :=
  let testFiles := pathtools.PrefixPaths testSrcs srcDir in
  let mainFile := filepath.Join [testRoot; "test.go"] in
  let testArchive := filepath.Join [testRoot; "test.a"] in
  let testFile := filepath.Join [testRoot; "test"] in
  [ compileAction srcDir deps pkgPath testPkgArchive (srcs ++ testSrcs) genSrcs [];
    {| Rule := goTestMain;
       Outputs := [mainFile];
       Inputs := testFiles;
       Implicits := ["$goTestMainCmd"];
       OrderOnly := [];
       Args := {[ "pkg" := pkgPath ]} |};
    {| Rule := compile;
       Outputs := [testArchive];
       Inputs := [mainFile];
       Implicits := ["$compileCmd"; testPkgArchive];
       OrderOnly := [];
       Args := <[ "incFlags" := "-I " +:+ testRoot ]> {[ "pkgPath" := "main" ]} |};
    {| Rule := link;
       Outputs := [testFile];
       Inputs := [testArchive];
       Implicits := ["$linkCmd"];
       OrderOnly := [];
       Args := {[ "libDirFlags" :=
                    strings.Join
                      (map (String.append "-L ") (testRoot :: packageRoots deps))
                      " " ]} |};
    {| Rule := test;
       Outputs := [testPassedFile testRoot];
       Inputs := [testFile];
       Implicits := [];
       OrderOnly := [];
       Args := <[ "pkgSrcDir" := filepath.Dir (hd "" testFiles) ]>
                 {[ "pkg" := pkgPath ]} |} ].

(** The placeholder for one target, in closed form: the no-op action,
    then one marker per input of it, then one marker per intermediate. *)
Definition phonyTarget (srcDir : string) (deps : list Module) (target : string)
    (srcs gensrcs intermediates : list string) : list BuildParams :=
  let inputs := pathtools.PrefixPaths srcs srcDir ++ gensrcs in
  {| Rule := phony;
     Outputs := [target];
     Inputs := inputs;
     Implicits := packageTargets deps;
     OrderOnly := [];
     Args := ∅ |}
  :: map marker inputs ++ map marker intermediates.

(** What a function that receives a context has added to its actions. *)
Definition emits (ctx ctx' : ModuleContext.t) (actions : list BuildParams) : Prop :=
  ModuleContext.builds ctx' = ModuleContext.builds ctx ++ actions
  ∧ ModuleContext.errs ctx' = ModuleContext.errs ctx
  ∧ ModuleContext.ModuleName ctx' = ModuleContext.ModuleName ctx
  ∧ ModuleContext.ModuleDir ctx' = ModuleContext.ModuleDir ctx
  ∧ ModuleContext.deps ctx' = ModuleContext.deps ctx.

(** Testing applies to a module when tests are enabled and the module
    declares at least one test source. *)
Definition testsEnabled (config : Config) (testSrcs : list string) : bool :=
  runGoTests config && bool_decide (testSrcs <> []).

(** The actions of a Package module with a package path, in closed form,
    by the three cases of active stage against module stage. *)
Definition packageActions (active : Stage) (g : goPackage.t)
    (name srcDir : string) (deps : list Module) : list BuildParams :=
  let props := goPackage.properties g in
  let pkgPath := goPackage.PkgPath props in
  let testing := testsEnabled (goPackage.config g) (goPackage.TestSrcs props) in
  let pkgRoot := filepath.Join [bootstrapDir; name; "pkg"] in
  let testRoot := filepath.Join [bootstrapDir; name; "test"] in
  let archive := filepath.Join [pkgRoot; pkgPath +:+ ".a"] in
  let testArchive := filepath.Join [testRoot; pkgPath +:+ ".a"] in
  if bool_decide (active = goPackage.buildStage g) then
    (if testing
     then testPipeline srcDir deps testRoot testArchive pkgPath
            (goPackage.Srcs props) [] (goPackage.TestSrcs props)
     else [])
    ++ [compileAction srcDir deps pkgPath archive (goPackage.Srcs props) []
          (if testing then [testPassedFile testRoot] else [])]
  else if bool_decide (active = StageBootstrap) then []
  else
    (if testing
     then phonyTarget srcDir deps testArchive (goPackage.TestSrcs props) [] []
     else [])
    ++ phonyTarget srcDir deps archive (goPackage.Srcs props) [] [].

(** The actions of a Binary module, in closed form.  The generated
    plugin source exists when the module is the primary builder and the
    process-wide plugin list is not empty. *)
Definition withPlugins (primaryBuilderPlugins : list string) (g : goBinary.t) : bool :=
  goBinary.PrimaryBuilder (goBinary.properties g)
  && bool_decide (primaryBuilderPlugins <> []).

Definition pluginAction (objDir : string) (deps : list Module) : BuildParams :=
  {| Rule := pluginGenSrc;
     Outputs := [filepath.Join [objDir; "plugin.go"]];
     Inputs := [];
     Implicits := ["$pluginGenSrcCmd"];
     OrderOnly := [];
     Args := {[ "plugins" := strings.Join (pluginPkgPaths deps) " " ]} |}.

Definition linkAction (deps : list Module) (archiveFile aoutFile : string)
  : BuildParams :=
  {| Rule := link;
     Outputs := [aoutFile];
     Inputs := [archiveFile];
     Implicits := ["$linkCmd"];
     OrderOnly := [];
     Args := match packageRoots deps with
             | [] => ∅
             | roots =>
                 {[ "libDirFlags" :=
                      strings.Join (map (String.append "-L ") roots) " " ]}
             end |}.

Definition binaryActions (active : Stage) (primaryBuilderPlugins : list string)
    (g : goBinary.t) (name srcDir : string) (deps : list Module)
  : list BuildParams :=
  let props := goBinary.properties g in
  let testing := testsEnabled (goBinary.config g) (goBinary.TestSrcs props) in
  let objDir := filepath.Join [bootstrapDir; name; "obj"] in
  let testRoot := filepath.Join [bootstrapDir; name; "test"] in
  let archive := filepath.Join [objDir; name +:+ ".a"] in
  let aoutFile := filepath.Join [objDir; "a.out"] in
  let binaryFile := filepath.Join ["$BinDir"; name] in
  let testArchive := filepath.Join [testRoot; name +:+ ".a"] in
  let genSrcs := if withPlugins primaryBuilderPlugins g
                 then [filepath.Join [objDir; "plugin.go"]]
                 else [] in
  if bool_decide (active = goBinary.buildStage g) then
    (if withPlugins primaryBuilderPlugins g then [pluginAction objDir deps] else [])
    ++ (if testing
        then testPipeline srcDir deps testRoot testArchive name
               (goBinary.Srcs props) genSrcs (goBinary.TestSrcs props)
        else [])
    ++ [compileAction srcDir deps name archive (goBinary.Srcs props) genSrcs
          (if testing then [testPassedFile testRoot] else []);
        linkAction deps archive aoutFile;
        build cp [binaryFile] [aoutFile] [] ∅]
  else if bool_decide (active = StageBootstrap) then []
  else
    (if testing
     then phonyTarget srcDir deps testArchive (goBinary.TestSrcs props) [] []
     else [])
    ++ phonyTarget srcDir deps binaryFile (goBinary.Srcs props) genSrcs
         [aoutFile; archive].

(** The names of the plugin-flagged Package modules, in the order in
    which the pass visits them. *)
Definition pluginNames (order : list moduleInfo) (mods : gmap string Module)
  : list string :=
  omap (fun mi => match mods !! name mi with
                  | Some (GoPackage g) =>
                      if goPackage.Plugin (goPackage.properties g)
                      then Some (name mi) else None
                  | _ => None
                  end) order.

(** The Binary modules flagged primary builder, with their names, in
    visiting order. *)
Definition flaggedBinaries (modules : list (string * Module))
  : list (string * goBinary.t) :=
  omap (fun m => match m.2 with
                 | GoBinary b =>
                     if goBinary.PrimaryBuilder (goBinary.properties b)
                     then Some (m.1, b) else None
                 | _ => None
                 end) modules.

(** The terminal action: it turns the chosen fragment into the manifest
    that the execution engine reads. *)
Definition terminalAction : BuildParams :=
  build bootstrap ["$buildDir/build.ninja"]
    [filepath.Join [bootstrapDir; "build.ninja.in"]] ["$bootstrapCmd"] ∅.

(** The stage of a module value, when it has one, and of the module
    stored under a name. *)
Definition moduleStage (module : Module) : option Stage :=
  bootstrapGoCore.BuildStage <$> asBootstrapGoCore module.

Definition stageOf (mods : gmap string Module) (n : string) : option Stage :=
  mods !! n ≫= moduleStage.

(** [b] is a direct dependency of the module named [a]. *)
Definition dependsOn (order : list moduleInfo) (a b : string) : Prop :=
  exists mi : moduleInfo, In mi order /\ name mi = a /\ In b (directDeps mi).

(** [b] is a direct dependency of [a], and [b] has a stage. *)
Definition stagedDependsOn (order : list moduleInfo) (mods : gmap string Module)
    (a b : string) : Prop :=
  dependsOn order a b /\ is_Some (stageOf mods b).

(** The order of a top-down pass: a module is visited only after all
    the modules that depend on it, so it is a dependency neither of itself
    nor of a module visited after it. *)
Fixpoint topDown (order : list moduleInfo) : bool :=
  match order with
  | [] => true
  | mi :: rest =>
      forallb (fun mj => bool_decide (name mi ∉ directDeps mj)) (mi :: rest)
      && topDown rest
  end.

(** The test archives of the modules of the Bootstrap stage that have
    one, in visiting order. *)
Definition bootstrapTestTargets (modules : list (string * Module)) : list string :=
  omap (fun m => match asGoTestProducer m.2 with
                 | Some t =>
                     if negb (String.eqb (goTestProducer.GoTestTarget t) "")
                        && bool_decide (goTestProducer.BuildStage t = StageBootstrap)
                     then Some (goTestProducer.GoTestTarget t)
                     else None
                 | None => None
                 end) modules.

(** Two module values that differ at most in their stage. *)
Definition sameButStage (m m' : Module) : Prop :=
  match m, m' with
  | GoPackage g, GoPackage g' =>
      goPackage.properties g' = goPackage.properties g
      /\ goPackage.pkgRoot g' = goPackage.pkgRoot g
      /\ goPackage.archiveFile g' = goPackage.archiveFile g
      /\ goPackage.testArchiveFile g' = goPackage.testArchiveFile g
      /\ goPackage.config g' = goPackage.config g
  | GoBinary g, GoBinary g' =>
      goBinary.properties g' = goBinary.properties g
      /\ goBinary.testArchiveFile g' = goBinary.testArchiveFile g
      /\ goBinary.config g' = goBinary.config g
  | OtherModule, OtherModule => True
  | _, _ => False
  end.

(** The stages are closed under dependencies: a module of the Bootstrap
    stage has no direct dependency in another stage. *)
Definition bootstrapClosed (order : list moduleInfo) (mods : gmap string Module)
  : Prop :=
  forall (mi : moduleInfo) (d : string),
    In mi order ->
    stageOf mods (name mi) = Some StageBootstrap ->
    In d (directDeps mi) ->
    stageOf mods d = Some StageBootstrap \/ stageOf mods d = None.

(** The name of the primary builder that the singleton settles on when
    at most one Binary is flagged. *)
Definition primaryBuilderNameOf (flagged : list (string * goBinary.t)) : string :=
  match flagged with
  | [] => "minibp"
  | primaryBuilder :: _ => primaryBuilder.1
  end.



(** The paths in the binary directory of the Binary modules of the
    Bootstrap stage ([boot] true) or of the other stages ([boot] false), in
    visiting order. *)
Definition binaryPaths (boot : bool) (modules : list (string * Module)) : list string :=
  omap (fun m => match m.2 with
                 | GoBinary b =>
                     if Bool.eqb (bool_decide (goBinary.BuildStage b = StageBootstrap)) boot
                     then Some (filepath.Join ["$BinDir"; m.1])
                     else None
                 | _ => None
                 end) modules.


(** An action that does no work: the package's [phony] rule or the
    engine's built-in one. *)
Definition isPlaceholder (a : BuildParams) : Prop :=
  Rule a = phony \/ Rule a = blueprint.Phony.

(** ** Concrete inputs

    Two packages and a binary in the style of the repository's own
    declaration file, used to evaluate the definitions. *)

Definition exConfig (stage : Stage) (runGoTests : bool) : Config :=
  {| stage := stage;
     topLevelBlueprintsFile := "/src/blueprint/Blueprints";
     runGoTests := runGoTests |}.

(** A package whose sources lie in a subdirectory of the module's
    directory. *)
Definition exParserProps : goPackage.Properties :=
  {| goPackage.PkgPath := "github.com/google/blueprint/parser";
     goPackage.Srcs := ["parser/parser.go"; "parser/printer.go"];
     goPackage.TestSrcs := ["parser/parser_test.go"];
     goPackage.Plugin := false |}.

Definition exParser (cfg : Config) : goPackage.t := goPackage.new cfg exParserProps.

(** The parser package after its own action generation. *)
Definition exParserBuilt (cfg : Config) : goPackage.t :=
  goPackage.setArchiveFile
    (goPackage.setPkgRoot (exParser cfg) "$buildDir/.bootstrap/blueprint-parser/pkg")
    "$buildDir/.bootstrap/blueprint-parser/pkg/github.com/google/blueprint/parser.a".

Definition exParserCtx : ModuleContext.t :=
  ModuleContext.start "blueprint-parser" "." [].

(** A package with two sources, no tests and no dependencies. *)
Definition exPlainProps : goPackage.Properties :=
  {| goPackage.PkgPath := "github.com/google/blueprint/deptools";
     goPackage.Srcs := ["depfile.go"; "escape.go"];
     goPackage.TestSrcs := [];
     goPackage.Plugin := false |}.

(** A package without a package path. *)
Definition exBadProps : goPackage.Properties :=
  {| goPackage.PkgPath := "";
     goPackage.Srcs := ["bad.go"];
     goPackage.TestSrcs := ["bad_test.go"];
     goPackage.Plugin := false |}.

(** A plugin package whose name differs from its package path. *)
Definition exPluginProps : goPackage.Properties :=
  {| goPackage.PkgPath := "example.com/builder/plugin";
     goPackage.Srcs := ["plugin.go"];
     goPackage.TestSrcs := [];
     goPackage.Plugin := true |}.

Definition exPluginBuilt (cfg : Config) : goPackage.t :=
  goPackage.setArchiveFile
    (goPackage.setPkgRoot (goPackage.new cfg exPluginProps)
       "$buildDir/.bootstrap/my-plugin/pkg")
    "$buildDir/.bootstrap/my-plugin/pkg/example.com/builder/plugin.a".

Definition exBinaryProps (primaryBuilder : bool) : goBinary.Properties :=
  {| goBinary.Srcs := ["main.go"];
     goBinary.TestSrcs := ["main_test.go"];
     goBinary.PrimaryBuilder := primaryBuilder |}.

Definition exBinary (cfg : Config) (buildStage : Stage) (primaryBuilder : bool)
  : goBinary.t :=
  goBinary.new cfg buildStage (exBinaryProps primaryBuilder).

Definition exBinaryCtx (cfg : Config) : ModuleContext.t :=
  ModuleContext.start "builder" "cmd/builder"
    [GoPackage (exParserBuilt cfg); GoPackage (exPluginBuilt cfg); OtherModule].

(** A graph that holds the plugin package alone. *)
Definition exPluginOrder : list moduleInfo :=
  [ {| name := "my-plugin"; dir := "plugin";
       directDeps := []; depsDepthFirst := [] |} ].

Definition exPluginMods (cfg : Config) : gmap string Module :=
  {[ "my-plugin" := GoPackage (goPackage.new cfg exPluginProps) ]}.

(** Three modules for the singleton: two binaries and a package. *)
Definition exModules (cfg : Config) (first second : bool) : list (string * Module) :=
  [ ("minibp", GoBinary (exBinary cfg StageBootstrap first));
    ("blueprint-parser", GoPackage (exParserBuilt cfg));
    ("builder", GoBinary (exBinary cfg StagePrimary second)) ].

(** A graph of three packages -- the one in the middle has no package
    path -- before any action generation. *)
Definition exOrder : list moduleInfo :=
  [ {| name := "blueprint-parser"; dir := ".";
       directDeps := []; depsDepthFirst := [] |};
    {| name := "bad"; dir := "bad";
       directDeps := ["blueprint-parser"];
       depsDepthFirst := ["blueprint-parser"] |};
    {| name := "blueprint-deptools"; dir := "deptools";
       directDeps := ["blueprint-parser"];
       depsDepthFirst := ["blueprint-parser"] |} ].

Definition exMods (cfg : Config) : gmap string Module :=
  <[ "blueprint-deptools" := GoPackage (goPackage.new cfg exPlainProps) ]>
    (<[ "bad" := GoPackage (goPackage.new cfg exBadProps) ]>
       {[ "blueprint-parser" := GoPackage (exParser cfg) ]}).

Definition exGeneration (cfg : Config) : generation :=
  {| gen_mods := exMods cfg; gen_builds := []; gen_errs := [] |}.

(** A binary of the Bootstrap stage that reaches a package through a
    module of a foreign type. *)
Definition exForeignOrder : list moduleInfo :=
  [ {| name := "minibp"; dir := "."; directDeps := ["gen"; "blueprint-parser"];
       depsDepthFirst := ["lib"; "gen"; "blueprint-parser"] |};
    {| name := "gen"; dir := "gen"; directDeps := ["lib"];
       depsDepthFirst := ["lib"] |};
    {| name := "blueprint-parser"; dir := "."; directDeps := [];
       depsDepthFirst := [] |};
    {| name := "lib"; dir := "lib"; directDeps := []; depsDepthFirst := [] |} ].

Definition exForeignMods (cfg : Config) : gmap string Module :=
  <[ "lib" := GoPackage (goPackage.new cfg exPlainProps) ]>
    (<[ "blueprint-parser" := GoPackage (exParser cfg) ]>
       (<[ "gen" := OtherModule ]>
          {[ "minibp" := GoBinary (exBinary cfg StageBootstrap false) ]})).

(** A plain file name: no separator in it, and none of the elements that
    [Clean] drops or resolves. *)
Fixpoint noSep (x : string) : bool :=
  match x with
  | EmptyString => true
  | String c rest => negb (filepath.isSep c) && noSep rest
  end.

Definition plainName (x : string) : bool :=
  noSep x && negb (String.eqb x "") && negb (String.eqb x ".")
  && negb (String.eqb x "..").

(** What the mutator does to a stage. *)
Definition toBootstrap (s : Stage) : Stage := StageBootstrap.

(** Membership in a list built by appending one action after another. *)
Ltac find_in :=
  first [ apply in_or_app; right; left; reflexivity
        | apply in_or_app; left; find_in ].

(** The statement of a theorem at an instance, with its hypotheses as
    conjuncts before its conclusion. *)
Ltac instance_of T :=
  lazymatch T with
  | ?H -> ?C => let r := instance_of C in constr:(H /\ r)
  | _ => T
  end.

(** ** Basic facts about the contexts *)

#[global] Arguments filepath.Join : simpl never.
#[global] Arguments filepath.Clean : simpl never.
#[global] Arguments filepath.Dir : simpl never.
#[global] Arguments filepath.Base : simpl never.
#[global] Arguments pathtools.PrefixPaths : simpl never.
#[global] Arguments buildGoPackage : simpl never.
#[global] Arguments buildGoTest : simpl never.
#[global] Arguments phonyGoTarget : simpl never.
#[global] Arguments packageRoot : simpl never.
#[global] Arguments testRoot : simpl never.
#[global] Arguments moduleSrcDir : simpl never.
#[global] Arguments moduleObjDir : simpl never.
#[global] Arguments compileAction : simpl never.
#[global] Arguments testPipeline : simpl never.
#[global] Arguments phonyTarget : simpl never.
#[global] Arguments testPassedFile : simpl never.
#[global] Arguments emits : simpl never.
#[global] Arguments pluginAction : simpl never.
#[global] Arguments linkAction : simpl never.


Section Visits.

Context (ctx : ModuleContext.t).

Lemma visit_flags (flag : string) (acc : list string) :
  VisitDepsDepthFirstIf ctx isGoPackageProducer (visitFlag flag) acc
  = acc ++ map (String.append flag) (packageRoots (ModuleContext.deps ctx)).
Proof.
  unfold VisitDepsDepthFirstIf, packageRoots.
  generalize (ModuleContext.deps ctx); intros ds; revert acc.
  induction ds as [|d ds IH]; intros acc; simpl.
  - by rewrite app_nil_r.
  - destruct d; simpl; try apply IH.
    rewrite IH. unfold visitFlag, visitTarget, visitPlugin; simpl.
    by rewrite <- app_assoc.
Qed.

Lemma visit_targets (acc : list string) :
  VisitDepsDepthFirstIf ctx isGoPackageProducer visitTarget acc
  = acc ++ packageTargets (ModuleContext.deps ctx).
Proof.
  unfold VisitDepsDepthFirstIf, packageTargets.
  generalize (ModuleContext.deps ctx); intros ds; revert acc.
  induction ds as [|d ds IH]; intros acc; simpl.
  - by rewrite app_nil_r.
  - destruct d; simpl; try apply IH.
    rewrite IH. unfold visitFlag, visitTarget, visitPlugin; simpl.
    by rewrite <- app_assoc.
Qed.

Lemma visit_flags_targets (flag : string) (fs ts : list string) :
  VisitDepsDepthFirstIf ctx isGoPackageProducer
    (fun '(incFlags, deps) module =>
       (visitFlag flag incFlags module, visitTarget deps module))
    (fs, ts)
  = (fs ++ map (String.append flag) (packageRoots (ModuleContext.deps ctx)),
     ts ++ packageTargets (ModuleContext.deps ctx)).
Proof.
  unfold VisitDepsDepthFirstIf, packageRoots, packageTargets.
  generalize (ModuleContext.deps ctx); intros ds; revert fs ts.
  induction ds as [|d ds IH]; intros fs ts; simpl.
  - by rewrite !app_nil_r.
  - destruct d; simpl; try apply IH.
    rewrite IH. unfold visitFlag, visitTarget; simpl.
    by rewrite <- !app_assoc.
Qed.

Lemma visit_plugins (acc : list string) :
  VisitDepsDepthFirstIf ctx isGoPlugin visitPlugin acc
  = acc ++ pluginPkgPaths (ModuleContext.deps ctx).
Proof.
  unfold VisitDepsDepthFirstIf, pluginPkgPaths.
  generalize (ModuleContext.deps ctx); intros ds; revert acc.
  induction ds as [|d ds IH]; intros acc; simpl.
  - by rewrite app_nil_r.
  - destruct d as [g| |]; simpl; try apply IH.
    unfold isGoPlugin; simpl.
    destruct (goPackage.IsPlugin g); simpl.
    + rewrite IH. unfold visitPlugin; simpl. by rewrite <- app_assoc.
    + apply IH.
Qed.

End Visits.

(** ** What the emitting functions add to a context *)

Lemma emits_refl (ctx : ModuleContext.t) : emits ctx ctx [].
Proof. unfold emits. by rewrite app_nil_r. Qed.

Lemma emits_Build (ctx : ModuleContext.t) (a : BuildParams) :
  emits ctx (Build ctx a) [a].
Proof. by unfold emits. Qed.

Lemma emits_trans (ctx1 ctx2 ctx3 : ModuleContext.t) (l1 l2 : list BuildParams) :
  emits ctx1 ctx2 l1 -> emits ctx2 ctx3 l2 -> emits ctx1 ctx3 (l1 ++ l2).
Proof.
  unfold emits. intros (Hb1 & He1 & Hn1 & Hd1 & Hs1) (Hb2 & He2 & Hn2 & Hd2 & Hs2).
  rewrite Hb2, Hb1, He2, He1, Hn2, Hn1, Hd2, Hd1, Hs2, Hs1.
  by rewrite app_assoc.
Qed.

Lemma emits_srcDir (ctx ctx' : ModuleContext.t) (l : list BuildParams) :
  emits ctx ctx' l -> moduleSrcDir ctx' = moduleSrcDir ctx.
Proof. intros (_ & _ & _ & Hd & _). unfold moduleSrcDir. by rewrite Hd. Qed.

Lemma emits_testRoot (ctx ctx' : ModuleContext.t) (l : list BuildParams) :
  emits ctx ctx' l -> testRoot ctx' = testRoot ctx.
Proof. intros (_ & _ & Hn & _ & _). unfold testRoot. by rewrite Hn. Qed.

Lemma buildGoPackage_eq (ctx : ModuleContext.t) (pkgRoot pkgPath archiveFile : string)
    (srcs genSrcs orderDeps : list string) :
  buildGoPackage ctx pkgRoot pkgPath archiveFile srcs genSrcs orderDeps
  = Build ctx (compileAction (moduleSrcDir ctx) (ModuleContext.deps ctx)
                 pkgPath archiveFile srcs genSrcs orderDeps).
Proof.
  unfold buildGoPackage, compileAction, compileArgs.
  rewrite visit_flags_targets. simpl.
  by destruct (packageRoots (ModuleContext.deps ctx)).
Qed.

Lemma buildGoPackage_emits (ctx : ModuleContext.t) (pkgRoot pkgPath archiveFile : string)
    (srcs genSrcs orderDeps : list string) :
  emits ctx (buildGoPackage ctx pkgRoot pkgPath archiveFile srcs genSrcs orderDeps)
    [compileAction (moduleSrcDir ctx) (ModuleContext.deps ctx)
       pkgPath archiveFile srcs genSrcs orderDeps].
Proof. rewrite buildGoPackage_eq. apply emits_Build. Qed.

Lemma buildGoTest_nil (ctx : ModuleContext.t) (testRoot testPkgArchive pkgPath : string)
    (srcs genSrcs : list string) :
  buildGoTest ctx testRoot testPkgArchive pkgPath srcs genSrcs [] = (ctx, []).
Proof. reflexivity. Qed.

Lemma buildGoTest_emits (ctx : ModuleContext.t) (testRoot testPkgArchive pkgPath : string)
    (srcs genSrcs testSrcs : list string) :
  testSrcs <> [] ->
  emits ctx (buildGoTest ctx testRoot testPkgArchive pkgPath srcs genSrcs testSrcs).1
    (testPipeline (moduleSrcDir ctx) (ModuleContext.deps ctx)
       testRoot testPkgArchive pkgPath srcs genSrcs testSrcs)
  ∧ (buildGoTest ctx testRoot testPkgArchive pkgPath srcs genSrcs testSrcs).2
    = [testPassedFile testRoot].
Proof.
  intros Hne. destruct testSrcs as [|t ts]; [done|].
  unfold buildGoTest. rewrite buildGoPackage_eq, visit_flags. simpl.
  split; [|done].
  unfold emits; simpl. rewrite <- !app_assoc. simpl. done.
Qed.

Lemma phonyEach_emits (paths : list string) (ctx : ModuleContext.t) :
  emits ctx (phonyEach ctx paths) (map marker paths).
Proof.
  unfold phonyEach. revert ctx.
  induction paths as [|p ps IH]; intros ctx; simpl.
  - apply emits_refl.
  - eapply (emits_trans _ _ _ [_]); [apply emits_Build | apply IH].
Qed.

Lemma phonyGoTarget_emits (ctx : ModuleContext.t) (target : string)
    (srcs gensrcs intermediates : list string) :
  emits ctx (phonyGoTarget ctx target srcs gensrcs intermediates)
    (phonyTarget (moduleSrcDir ctx) (ModuleContext.deps ctx)
       target srcs gensrcs intermediates).
Proof.
  unfold phonyGoTarget, phonyTarget. rewrite visit_targets. simpl.
  eapply (emits_trans _ _ _ [_]); [apply emits_Build|].
  eapply emits_trans; apply phonyEach_emits.
Qed.

(** ** Joining a directory and a file name *)

Lemma elements_noSep (x : string) : noSep x = true -> filepath.elements x = [x].
Proof.
  induction x as [|c x IH]; simpl; [done|].
  intros [Hc Hx]%andb_true_iff. apply negb_true_iff in Hc.
  by rewrite Hc, (IH Hx).
Qed.

Lemma elements_nonempty (r : string) : filepath.elements r <> [].
Proof.
  destruct r as [|c r]; simpl; [done|].
  destruct (filepath.isSep c); [done|].
  by destruct (filepath.elements r).
Qed.

Lemma elements_snoc (r x : string) :
  noSep x = true ->
  filepath.elements (r +:+ String "/" x) = filepath.elements r ++ [x].
Proof.
  intros Hx. induction r as [|c r IH]; simpl.
  - by rewrite (elements_noSep x Hx).
  - rewrite IH. destruct (filepath.isSep c); [done|].
    pose proof (elements_nonempty r) as Hne.
    by destruct (filepath.elements r).
Qed.

Lemma append_assoc3 (a b d : string) : (a +:+ b) +:+ d = a +:+ (b +:+ d).
Proof.
  induction a as [|e a IH]; [done|].
  change (String e ((a +:+ b) +:+ d) = String e (a +:+ (b +:+ d))).
  by rewrite IH.
Qed.

Lemma concat_snoc (l : list string) (x : string) :
  String.concat "/" (l ++ [x])
  = match l with
    | [] => x
    | _ => String.concat "/" l +:+ String "/" x
    end.
Proof.
  induction l as [|a l IH]; [done|].
  destruct l as [|b l]; [reflexivity|].
  change (String.concat "/" ((a :: b :: l) ++ [x]))
    with (a +:+ String "/" (String.concat "/" ((b :: l) ++ [x]))).
  rewrite IH.
  change (String.concat "/" (a :: b :: l))
    with (a +:+ String "/" (String.concat "/" (b :: l))).
  by rewrite append_assoc3.
Qed.

Lemma append_snoc_nonempty (q x : string) :
  x <> "" -> String.eqb (q +:+ x) "" = false.
Proof.
  intros Hx. destruct q; simpl; [|done].
  destruct x; [done|reflexivity].
Qed.

(** Joining a non-empty directory and a plain file name puts the name
    last, after a prefix that the directory alone determines. *)
Lemma Join_plain (r : string) :
  exists p : string,
    forall x : string, plainName x = true -> filepath.Join [r; x] = p +:+ x.
Proof.
  destruct r as [|c r].
  - exists "". intros x Hx. unfold plainName in Hx.
    apply andb_true_iff in Hx as [[[Hs He]%andb_true_iff Hd]%andb_true_iff Hdd].
    apply negb_true_iff in He, Hd, Hdd.
    change (filepath.Join [""; x])
      with (if String.eqb x "" then "" else filepath.Clean x).
    rewrite He.
    destruct x as [|d x]; [done|].
    unfold filepath.Clean.
    assert (Hr : filepath.isSep d = false).
    { simpl in Hs. apply andb_true_iff in Hs as [Hs _]. by apply negb_true_iff. }
    rewrite Hr, (elements_noSep _ Hs). simpl.
    unfold filepath.cleanElem. rewrite He, Hd, Hdd. simpl.
    change (String.eqb (String d x) "") with false. done.
  - set (rooted := filepath.isSep c).
    set (out0 := fold_left (filepath.cleanElem rooted)
                   (filepath.elements (String c r)) []).
    exists ((if rooted then "/" else "")
            +:+ match rev out0 with
                | [] => ""
                | _ => String.concat "/" (rev out0) +:+ "/"
                end).
    intros x Hx. unfold plainName in Hx.
    apply andb_true_iff in Hx as [[[Hs He]%andb_true_iff Hd]%andb_true_iff Hdd].
    apply negb_true_iff in He, Hd, Hdd.
    assert (Hxne : x <> "") by (intros ->; done).
    change (filepath.Join [String c r; x])
      with (filepath.Clean (String.concat "/" [String c r; x])).
    change (String.concat "/" [String c r; x])
      with (String c (r +:+ String "/" x)).
    unfold filepath.Clean. fold rooted.
    change (String c (r +:+ String "/" x)) with (String c r +:+ String "/" x).
    rewrite (elements_snoc _ _ Hs), fold_left_app. fold out0. simpl.
    assert (Hpush : filepath.cleanElem rooted out0 x = x :: out0).
    { unfold filepath.cleanElem. by rewrite He, Hd, Hdd. }
    rewrite Hpush. simpl. rewrite concat_snoc.
    destruct (rev out0) as [|e es].
    + destruct rooted; [reflexivity|]. by rewrite He.
    + generalize (String.concat "/" (e :: es)); intros q.
      destruct rooted.
      * by rewrite !append_assoc3.
      * rewrite append_snoc_nonempty by done.
        change ("" +:+ (q +:+ "/")) with (q +:+ "/").
        by rewrite append_assoc3.
Qed.

Lemma append_inj_l (p x y : string) : p +:+ x = p +:+ y -> x = y.
Proof.
  induction p as [|c p IH]; [done|].
  change (String c (p +:+ x) = String c (p +:+ y) -> x = y).
  intros [= H]. by apply IH.
Qed.

(** Two different plain names give two different paths under the same
    directory. *)
Lemma Join_plain_ne (r x y : string) :
  plainName x = true -> plainName y = true -> x <> y ->
  filepath.Join [r; x] <> filepath.Join [r; y].
Proof.
  intros Hx Hy Hne. destruct (Join_plain r) as [p Hp].
  rewrite (Hp x Hx), (Hp y Hy). intros Heq. by apply Hne, (append_inj_l p).
Qed.

(** ** The test pipeline *)

(** C5, as the code has it.  With at least one test source,
    [buildGoTest] adds exactly five
    actions: (1) the compile of the implementation and test sources into
    the test archive of the package; (2) the generation of the test main
    from the test sources and the package path; (3) the compile of the test
    main into an archive of its own, with the test archive as a dependency
    and the test root as include directory; (4) the link of the test
    executable, with the test root and every dependency's package root on
    the library path; (5) the run of the executable from the directory of
    the module's declared test sources (that of the first of them), which
    touches [test.passed].  It returns that sentinel, and not the
    executable. *)
Theorem test_pipeline_actions (ctx : ModuleContext.t)
    (testRoot testPkgArchive pkgPath : string) (srcs genSrcs testSrcs : list string) :
  testSrcs <> [] ->
  let srcDir := moduleSrcDir ctx in
  let deps := ModuleContext.deps ctx in
  let testFiles := pathtools.PrefixPaths testSrcs srcDir in
  let mainFile := filepath.Join [testRoot; "test.go"] in
  let testArchive := filepath.Join [testRoot; "test.a"] in
  let testFile := filepath.Join [testRoot; "test"] in
  let testPassed := filepath.Join [testRoot; "test.passed"] in
  let r := buildGoTest ctx testRoot testPkgArchive pkgPath srcs genSrcs testSrcs in
  exists a1 a2 a3 a4 a5 : BuildParams,
    ModuleContext.builds r.1 = ModuleContext.builds ctx ++ [a1; a2; a3; a4; a5]
    /\ ModuleContext.errs r.1 = ModuleContext.errs ctx
    /\ (Rule a1 = compile
        /\ Inputs a1 = pathtools.PrefixPaths (srcs ++ testSrcs) srcDir ++ genSrcs
        /\ Outputs a1 = [testPkgArchive]
        /\ Implicits a1 = "$compileCmd" :: packageTargets deps
        /\ Args a1 !! "pkgPath" = Some pkgPath)
    /\ (Rule a2 = goTestMain
        /\ Inputs a2 = testFiles
        /\ Outputs a2 = [mainFile]
        /\ Args a2 !! "pkg" = Some pkgPath)
    /\ (Rule a3 = compile
        /\ Inputs a3 = [mainFile]
        /\ Outputs a3 = [testArchive]
        /\ Implicits a3 = ["$compileCmd"; testPkgArchive]
        /\ Args a3 !! "incFlags" = Some ("-I " +:+ testRoot))
    /\ (Rule a4 = link
        /\ Inputs a4 = [testArchive]
        /\ Outputs a4 = [testFile]
        /\ Args a4 !! "libDirFlags"
           = Some (strings.Join
                     (map (String.append "-L ") (testRoot :: packageRoots deps)) " "))
    /\ (Rule a5 = test
        /\ Inputs a5 = [testFile]
        /\ Outputs a5 = [testPassed]
        /\ Args a5 !! "pkgSrcDir" = Some (filepath.Dir (hd "" testFiles)))
    /\ r.2 = [testPassed]
    /\ ~ In testFile r.2.
Proof.
  intros Hne srcDir deps testFiles mainFile testArchive testFile testPassed r.
  destruct (buildGoTest_emits ctx testRoot testPkgArchive pkgPath srcs genSrcs
              testSrcs Hne) as [(Hb & He & _) Hr].
  fold r in Hb, He, Hr. unfold testPipeline in Hb.
  eexists _, _, _, _, _. split; [exact Hb|].
  split; [exact He|].
  repeat split; try reflexivity; try exact Hr.
  - simpl. unfold compileArgs.
    destruct (packageRoots _); [apply lookup_singleton_eq|].
    rewrite lookup_insert_ne by done. apply lookup_singleton_eq.
  - rewrite Hr. intros [Heq|[]]. revert Heq.
    by apply Join_plain_ne.
Qed.

Lemma test_pipeline_actions_witness :
  ltac:(let T := type of (test_pipeline_actions exParserCtx
                            "$buildDir/.bootstrap/blueprint-parser/test"
                            "$buildDir/.bootstrap/blueprint-parser/test/parser.a"
                            "github.com/google/blueprint/parser"
                            ["parser/parser.go"] [] ["parser/parser_test.go"]) in
        let P := instance_of T in exact P).
Proof. split; [done | by apply test_pipeline_actions]. Defined.

(** C5, as stated, fails: for a module declared in the top directory
    whose test source lies in [parser/], the executable runs in
    [$srcDir/parser], which is not the module's source directory
    [$srcDir]. *)
Lemma test_pipeline_workdir_counterexample :
  let r := buildGoTest exParserCtx
             "$buildDir/.bootstrap/blueprint-parser/test"
             "$buildDir/.bootstrap/blueprint-parser/test/parser.a"
             "github.com/google/blueprint/parser"
             ["parser/parser.go"] [] ["parser/parser_test.go"] in
  (last (ModuleContext.builds r.1) ≫= fun a => Args a !! "pkgSrcDir")
  = Some "$srcDir/parser"
  /\ moduleSrcDir exParserCtx = "$srcDir"
  /\ (last (ModuleContext.builds r.1) ≫= fun a => Args a !! "pkgSrcDir")
     <> Some (moduleSrcDir exParserCtx).
Proof. vm_compute. repeat split; congruence. Qed.

(** ** Placeholders *)


(** ** Package modules *)

Lemma ltb_length_nonempty {A} (l : list A) :
  Nat.ltb 0 (List.length l) = bool_decide (l <> []).
Proof. by destruct l. Qed.

Lemma hasTests_testsEnabled (config : Config) (testSrcs : list string) :
  Nat.ltb 0 (List.length testSrcs) && runGoTests config
  = testsEnabled config testSrcs.
Proof. unfold testsEnabled. rewrite ltb_length_nonempty. apply andb_comm. Qed.

(** The derived fields after a successful generation. *)
Lemma goPackage_generate_fields (g : goPackage.t) (ctx : ModuleContext.t) :
  goPackage.PkgPath (goPackage.properties g) <> "" ->
  let g' := (goPackage_GenerateBuildActions g ctx).1 in
  let pkgPath := goPackage.PkgPath (goPackage.properties g) in
  goPackage.properties g' = goPackage.properties g
  /\ goPackage.config g' = goPackage.config g
  /\ goPackage.buildStage g' = goPackage.buildStage g
  /\ goPackage.pkgRoot g' = packageRoot ctx
  /\ goPackage.archiveFile g' = filepath.Join [packageRoot ctx; pkgPath +:+ ".a"]
  /\ goPackage.testArchiveFile g'
     = if testsEnabled (goPackage.config g) (goPackage.TestSrcs (goPackage.properties g))
       then filepath.Join [testRoot ctx; pkgPath +:+ ".a"]
       else goPackage.testArchiveFile g.
Proof.
  intros Hne g' pkgPath. subst g'.
  unfold goPackage_GenerateBuildActions.
  apply String.eqb_neq in Hne. rewrite Hne.
  rewrite hasTests_testsEnabled.
  destruct (testsEnabled _ _); simpl;
    repeat (match goal with
            | |- context [bool_decide ?P] => destruct (bool_decide P)
            | |- context [let '(_, _) := ?x in _] => destruct x
            end; simpl);
    by repeat split.
Qed.

(** The actions of a successful generation. *)
Lemma goPackage_generate_emits (g : goPackage.t) (ctx : ModuleContext.t) :
  goPackage.PkgPath (goPackage.properties g) <> "" ->
  emits ctx (goPackage_GenerateBuildActions g ctx).2
    (packageActions (stage (goPackage.config g)) g
       (ModuleContext.ModuleName ctx) (moduleSrcDir ctx) (ModuleContext.deps ctx)).
Proof.
  intros Hne. unfold goPackage_GenerateBuildActions, packageActions.
  apply String.eqb_neq in Hne. rewrite Hne.
  rewrite hasTests_testsEnabled.
  unfold filepath.FromSlash, goPackage.BuildStage.
  fold (packageRoot ctx) (testRoot ctx).
  set (props := goPackage.properties g).
  set (pkgPath := goPackage.PkgPath props).
  set (archive := filepath.Join [packageRoot ctx; pkgPath +:+ ".a"]).
  set (testArchive := filepath.Join [testRoot ctx; pkgPath +:+ ".a"]).
  unfold testsEnabled.
  destruct (runGoTests (goPackage.config g)) eqn:Hrun;
    destruct (goPackage.TestSrcs props) as [|t ts] eqn:Hts; cbn;
    rewrite ?Hrun; cbn;
    (destruct (bool_decide (stage (goPackage.config g) = goPackage.buildStage g));
     [|destruct (decide (stage (goPackage.config g) = StageBootstrap)) as [Hb|Hb];
       [rewrite (bool_decide_eq_false_2 _ (fun H => H Hb)),
                (bool_decide_eq_true_2 _ Hb)
       |rewrite (bool_decide_eq_true_2 _ Hb), (bool_decide_eq_false_2 _ Hb)]]);
    cbn; try apply emits_refl.
  - apply buildGoPackage_emits.
  - apply phonyGoTarget_emits.
  - destruct (buildGoTest_emits ctx (testRoot ctx) testArchive pkgPath
                (goPackage.Srcs props) [] (t :: ts)) as [H1 H2]; [done|].
    destruct (buildGoTest _ _ _ _ _ _ _) as [ctx1 deps1]. cbn in H1, H2. subst deps1.
    eapply emits_trans; [exact H1|].
    rewrite <- (emits_srcDir _ _ _ H1).
    destruct H1 as (_ & _ & _ & _ & Hd). rewrite <- Hd.
    apply buildGoPackage_emits.
  - pose proof (phonyGoTarget_emits ctx testArchive (t :: ts) [] []) as H1.
    eapply emits_trans; [exact H1|].
    rewrite <- (emits_srcDir _ _ _ H1).
    destruct H1 as (_ & _ & _ & _ & Hd). rewrite <- Hd.
    apply phonyGoTarget_emits.
  - apply buildGoPackage_emits.
  - apply phonyGoTarget_emits.
  - apply buildGoPackage_emits.
  - apply phonyGoTarget_emits.
Qed.

Lemma phonyTarget_placeholders (srcDir : string) (deps : list Module) (target : string)
    (srcs gensrcs intermediates : list string) :
  Forall isPlaceholder (phonyTarget srcDir deps target srcs gensrcs intermediates).
Proof.
  unfold phonyTarget. constructor; [by left|].
  rewrite <- map_app. apply Forall_map, Forall_forall. intros path _. by right.
Qed.

(** C4. A Package module with a package path emits in exactly three
    ways.  When the active stage is the module's stage: the compile action
    of its archive, after the test pipeline when testing applies.  When the
    active stage is Bootstrap and the module's stage is another: nothing.
    In every other case: the placeholder of its archive, after the
    placeholder of its test archive when testing applies, and nothing but
    placeholders.  No case reports an error. *)
Theorem package_emission_three_ways (g : goPackage.t) (ctx : ModuleContext.t) :
  goPackage.PkgPath (goPackage.properties g) <> "" ->
  let props := goPackage.properties g in
  let active := stage (goPackage.config g) in
  let testing := testsEnabled (goPackage.config g) (goPackage.TestSrcs props) in
  let srcDir := moduleSrcDir ctx in
  let deps := ModuleContext.deps ctx in
  let r := goPackage_GenerateBuildActions g ctx in
  let archive := goPackage.archiveFile r.1 in
  let testArchive := goPackage.testArchiveFile r.1 in
  ModuleContext.errs r.2 = ModuleContext.errs ctx
  /\ (active = goPackage.buildStage g ->
      ModuleContext.builds r.2
      = ModuleContext.builds ctx
        ++ (if testing
            then testPipeline srcDir deps (testRoot ctx) testArchive
                   (goPackage.PkgPath props) (goPackage.Srcs props) []
                   (goPackage.TestSrcs props)
            else [])
        ++ [compileAction srcDir deps (goPackage.PkgPath props) archive
              (goPackage.Srcs props) []
              (if testing then [testPassedFile (testRoot ctx)] else [])])
  /\ (active <> goPackage.buildStage g -> active = StageBootstrap ->
      ModuleContext.builds r.2 = ModuleContext.builds ctx)
  /\ (active <> goPackage.buildStage g -> active <> StageBootstrap ->
      exists placeholders : list BuildParams,
        ModuleContext.builds r.2 = ModuleContext.builds ctx ++ placeholders
        /\ placeholders
           = (if testing
              then phonyTarget srcDir deps testArchive
                     (goPackage.TestSrcs props) [] []
              else [])
             ++ phonyTarget srcDir deps archive (goPackage.Srcs props) [] []
        /\ Forall isPlaceholder placeholders).
Proof.
  intros Hne props active testing srcDir deps r archive testArchive.
  destruct (goPackage_generate_fields g ctx Hne)
    as (_ & _ & _ & _ & Harch & Htest).
  destruct (goPackage_generate_emits g ctx Hne) as (Hb & He & _).
  fold r in Harch, Htest, Hb, He. fold props testing in Htest.
  fold archive in Harch. fold testArchive in Htest.
  unfold packageActions in Hb. cbv zeta in Hb.
  change (filepath.Join [bootstrapDir; ModuleContext.ModuleName ctx; "pkg"])
    with (packageRoot ctx) in Hb.
  change (filepath.Join [bootstrapDir; ModuleContext.ModuleName ctx; "test"])
    with (testRoot ctx) in Hb.
  fold props active testing srcDir deps in Hb.
  fold props in Harch. rewrite <- Harch in Hb.
  split; [exact He|]. repeat split.
  - intros Heq. rewrite (bool_decide_eq_true_2 _ Heq) in Hb.
    rewrite Hb. destruct testing; [|done]. by rewrite Htest.
  - intros Hneq Hboot. rewrite (bool_decide_eq_false_2 _ Hneq) in Hb.
    rewrite (bool_decide_eq_true_2 _ Hboot) in Hb. by rewrite app_nil_r in Hb.
  - intros Hneq Hboot. rewrite (bool_decide_eq_false_2 _ Hneq) in Hb.
    rewrite (bool_decide_eq_false_2 _ Hboot) in Hb.
    eexists. split; [|split; [reflexivity|]].
    + rewrite Hb. destruct testing; [|done]. by rewrite Htest.
    + apply Forall_app. split; [|apply phonyTarget_placeholders].
      destruct testing; [apply phonyTarget_placeholders|constructor].
Qed.

Lemma package_emission_three_ways_witness :
  ltac:(let T := type of (package_emission_three_ways
                            (exParser (exConfig StageMain true)) exParserCtx) in
        let T := eval cbv zeta in T in
        let P := instance_of T in exact P).
Proof. split; [done | by apply package_emission_three_ways]. Defined.

(** C8. One Package module with a package path, two declared sources,
    no test sources and no dependencies, whose stage is the active stage,
    emits exactly one action: a compile action whose inputs are the two
    sources, qualified with the source directory, and whose arguments hold
    no include flags. *)
Theorem single_package_one_compile (g : goPackage.t) (name dir s1 s2 : string) :
  goPackage.PkgPath (goPackage.properties g) <> "" ->
  goPackage.Srcs (goPackage.properties g) = [s1; s2] ->
  goPackage.TestSrcs (goPackage.properties g) = [] ->
  stage (goPackage.config g) = goPackage.buildStage g ->
  let ctx := ModuleContext.start name dir [] in
  let r := goPackage_GenerateBuildActions g ctx in
  exists a : BuildParams,
    ModuleContext.builds r.2 = [a]
    /\ ModuleContext.errs r.2 = []
    /\ Rule a = compile
    /\ Outputs a = [goPackage.archiveFile r.1]
    /\ Inputs a = [filepath.Join [moduleSrcDir ctx; s1];
                   filepath.Join [moduleSrcDir ctx; s2]]
    /\ Args a !! "incFlags" = None
    /\ Args a !! "pkgPath" = Some (goPackage.PkgPath (goPackage.properties g)).
Proof.
  intros Hne Hsrcs Htests Hstage ctx r.
  destruct (goPackage_generate_fields g ctx Hne)
    as (_ & _ & _ & _ & Harch & _).
  destruct (goPackage_generate_emits g ctx Hne) as (Hb & He & _).
  fold r in Harch, Hb, He. unfold packageActions in Hb. cbv zeta in Hb.
  change (filepath.Join [bootstrapDir; ModuleContext.ModuleName ctx; "pkg"])
    with (packageRoot ctx) in Hb.
  rewrite <- Harch in Hb.
  rewrite (bool_decide_eq_true_2 _ Hstage) in Hb.
  unfold testsEnabled in Hb. rewrite Htests, Hsrcs in Hb.
  rewrite andb_false_r in Hb. cbn [app] in Hb.
  eexists. split; [exact Hb|]. split; [exact He|].
  repeat split.
Qed.

Lemma single_package_one_compile_witness :
  ltac:(let T := type of (single_package_one_compile
                            (goPackage.new (exConfig StagePrimary false) exPlainProps)
                            "blueprint-deptools" "deptools"
                            "depfile.go" "escape.go") in
        let T := eval cbv zeta in T in
        let P := instance_of T in exact P).
Proof.
  repeat (split; [done|]). by apply single_package_one_compile.
Defined.

(** C9. A Package module without a package path, as its factory made it
    and whatever stage propagation gave it, comes back from action
    generation unchanged: its package root, archive path and test-archive
    path are still empty, and no action was added. *)
Theorem empty_pkgPath_leaves_state (cfg : Config) (props : goPackage.Properties)
    (s : Stage) (ctx : ModuleContext.t) :
  goPackage.PkgPath props = "" ->
  let g := goPackage.SetBuildStage (goPackage.new cfg props) s in
  let r := goPackage_GenerateBuildActions g ctx in
  r.1 = g
  /\ goPackage.pkgRoot r.1 = ""
  /\ goPackage.archiveFile r.1 = ""
  /\ goPackage.testArchiveFile r.1 = ""
  /\ ModuleContext.builds r.2 = ModuleContext.builds ctx.
Proof.
  intros Hempty g r. subst r. unfold goPackage_GenerateBuildActions.
  change (goPackage.PkgPath (goPackage.properties g)) with (goPackage.PkgPath props).
  by rewrite Hempty.
Qed.

Lemma empty_pkgPath_leaves_state_witness :
  ltac:(let T := type of (empty_pkgPath_leaves_state
                            (exConfig StagePrimary true) exBadProps StageBootstrap
                            (ModuleContext.start "bad" "bad" [])) in
        let T := eval cbv zeta in T in
        let P := instance_of T in exact P).
Proof. split; [done | by apply empty_pkgPath_leaves_state]. Defined.

(** ** Binary modules *)

Lemma Join_plain_nonempty (r x : string) :
  plainName x = true -> String.eqb (filepath.Join [r; x]) "" = false.
Proof.
  intros Hx. destruct (Join_plain r) as [p Hp]. rewrite (Hp x Hx).
  apply append_snoc_nonempty. intros ->. done.
Qed.

Lemma emits_same_view (ctx ctx' : ModuleContext.t) (l : list BuildParams) :
  emits ctx ctx' l ->
  moduleSrcDir ctx' = moduleSrcDir ctx
  /\ moduleObjDir ctx' = moduleObjDir ctx
  /\ testRoot ctx' = testRoot ctx
  /\ ModuleContext.ModuleName ctx' = ModuleContext.ModuleName ctx
  /\ ModuleContext.deps ctx' = ModuleContext.deps ctx.
Proof.
  intros (_ & _ & Hn & Hd & Hs).
  unfold moduleSrcDir, moduleObjDir, testRoot. by rewrite Hn, Hd, Hs.
Qed.

Lemma goBinary_generate_emits (plugins : list string) (g : goBinary.t)
    (ctx : ModuleContext.t) :
  emits ctx (goBinary_GenerateBuildActions plugins g ctx).2
    (binaryActions (stage (goBinary.config g)) plugins g
       (ModuleContext.ModuleName ctx) (moduleSrcDir ctx) (ModuleContext.deps ctx)).
Proof.
  unfold goBinary_GenerateBuildActions, binaryActions.
  rewrite hasTests_testsEnabled, ltb_length_nonempty.
  fold (withPlugins plugins g).
  change (filepath.Join [bootstrapDir; ModuleContext.ModuleName ctx; "obj"])
    with (moduleObjDir ctx).
  change (filepath.Join [bootstrapDir; ModuleContext.ModuleName ctx; "test"])
    with (testRoot ctx).
  set (props := goBinary.properties g).
  set (name := ModuleContext.ModuleName ctx).
  set (objDir := moduleObjDir ctx).
  set (archive := filepath.Join [objDir; name +:+ ".a"]).
  set (aoutFile := filepath.Join [objDir; "a.out"]).
  set (binaryFile := filepath.Join ["$BinDir"; name]).
  set (testArchive := filepath.Join [testRoot ctx; name +:+ ".a"]).
  set (testing := testsEnabled (goBinary.config g) (goBinary.TestSrcs props)).
  set (g' := if testing then goBinary.setTestArchiveFile g testArchive else g).
  assert (Hg' : goBinary.config g' = goBinary.config g
                /\ goBinary.BuildStage g' = goBinary.buildStage g
                /\ (testing = true -> goBinary.testArchiveFile g' = testArchive)).
  { unfold g'. by destruct testing. }
  destruct Hg' as (Hcfg & Hst & Hta).
  cbv zeta.
  set (genSrcs := if withPlugins plugins g
                  then [filepath.Join [objDir; "plugin.go"]] else []).
  assert (Hgen : (if withPlugins plugins g
                  then (filepath.Join [objDir; "plugin.go"],
                        [filepath.Join [objDir; "plugin.go"]])
                  else ("", []))
                 = (if withPlugins plugins g
                    then filepath.Join [objDir; "plugin.go"] else "", genSrcs)).
  { unfold genSrcs. by destruct (withPlugins plugins g). }
  rewrite Hgen, Hcfg, Hst. clear Hgen.
  destruct (decide (stage (goBinary.config g) = goBinary.buildStage g)) as [Heq|Hneq].
  - rewrite (bool_decide_eq_true_2 _ Heq).
    set (ctx0 := if negb _ then _ else ctx).
    assert (H0 : emits ctx ctx0
                   (if withPlugins plugins g
                    then [pluginAction objDir (ModuleContext.deps ctx)] else [])).
    { unfold ctx0. destruct (withPlugins plugins g).
      - rewrite Join_plain_nonempty by done. cbn [negb].
        rewrite visit_plugins. apply emits_Build.
      - apply emits_refl. }
    destruct (emits_same_view _ _ _ H0) as (Hsd0 & Hod0 & Htr0 & Hn0 & Hd0).
    set (rt := if runGoTests (goBinary.config g) then _ else (ctx0, [])).
    assert (H1 : emits ctx0 rt.1
                   (if testing
                    then testPipeline (moduleSrcDir ctx) (ModuleContext.deps ctx)
                           (testRoot ctx) testArchive name
                           (goBinary.Srcs props) genSrcs (goBinary.TestSrcs props)
                    else [])
                 /\ rt.2 = if testing then [testPassedFile (testRoot ctx)] else []).
    { unfold rt, testing, testsEnabled.
      destruct (runGoTests (goBinary.config g)) eqn:Hrun; cbn [andb].
      - destruct (goBinary.TestSrcs props) as [|t ts] eqn:Hts.
        + rewrite buildGoTest_nil. split; [apply emits_refl|done].
        + rewrite (bool_decide_eq_true_2 (t :: ts <> [])) by done.
          rewrite Htr0, <- Hsd0, <- Hd0, Hta.
          * by apply buildGoTest_emits.
          * unfold testing, testsEnabled. rewrite Hrun. done.
      - split; [apply emits_refl|done]. }
    destruct rt as [ctx1 deps1]. cbn [fst snd] in H1. destruct H1 as [H1 ->].
    pose proof (emits_trans _ _ _ _ _ H0 H1) as H01.
    destruct (emits_same_view _ _ _ H01) as (Hsd1 & Hod1 & Htr1 & Hn1 & Hd1).
    cbn [snd].
    rewrite buildGoPackage_eq, visit_flags. cbn [app].
    cbn [ModuleContext.deps ModuleContext.Build].
    rewrite Hsd1, Hd1.
    assert (Hlink : (if Nat.ltb 0 (List.length
                          (map (String.append "-L ")
                             (packageRoots (ModuleContext.deps ctx))))
                     then {[ "libDirFlags" :=
                               strings.Join
                                 (map (String.append "-L ")
                                    (packageRoots (ModuleContext.deps ctx))) " " ]}
                     else (∅ : gmap string string))
                    = Args (linkAction (ModuleContext.deps ctx) archive aoutFile)).
    { unfold linkAction. cbn [Args].
      by destruct (packageRoots (ModuleContext.deps ctx)). }
    rewrite Hlink.
    rewrite app_assoc.
    eapply emits_trans; [exact H01|].
    eapply (emits_trans _ _ _ [_] [_; _]); [apply emits_Build|].
    eapply (emits_trans _ _ _ [_] [_]); apply emits_Build.
  - rewrite (bool_decide_eq_false_2 _ Hneq).
    destruct (decide (stage (goBinary.config g) = StageBootstrap)) as [Hb|Hb].
    + rewrite (bool_decide_eq_false_2 _ (fun H => H Hb)), (bool_decide_eq_true_2 _ Hb).
      apply emits_refl.
    + rewrite (bool_decide_eq_true_2 _ Hb), (bool_decide_eq_false_2 _ Hb).
      cbn [snd].
      set (ctx1 := if testing then _ else ctx).
      assert (H1 : emits ctx ctx1
                     (if testing
                      then phonyTarget (moduleSrcDir ctx) (ModuleContext.deps ctx)
                             testArchive (goBinary.TestSrcs props) [] []
                      else [])).
      { unfold ctx1. destruct testing eqn:Ht.
        - rewrite Hta by done. apply phonyGoTarget_emits.
        - apply emits_refl. }
      destruct (emits_same_view _ _ _ H1) as (Hsd1 & _ & _ & _ & Hd1).
      eapply emits_trans; [exact H1|].
      rewrite <- Hsd1, <- Hd1. apply phonyGoTarget_emits.
Qed.

(** ** The sentinel of the tests and the archive *)









(** ** Plugins *)

Lemma runPluginFinder_eq (order : list moduleInfo) (mods : gmap string Module)
    (plugins : list string) :
  runPluginFinder order mods plugins = plugins ++ pluginNames order mods.
Proof.
  unfold runPluginFinder, pluginNames. revert plugins.
  induction order as [|mi order IH]; intros plugins; cbn [fold_left omap list_omap].
  - by rewrite app_nil_r.
  - rewrite IH. destruct (mods !! name mi) as [[g| |]|]; cbn; try done.
    destruct (goPackage.Plugin (goPackage.properties g)); [|done].
    by rewrite <- app_assoc.
Qed.

Lemma testPipeline_rules (srcDir : string) (deps : list Module)
    (testRoot testPkgArchive pkgPath : string) (srcs genSrcs testSrcs : list string) :
  Forall (fun b => Rule b <> pluginGenSrc)
    (testPipeline srcDir deps testRoot testPkgArchive pkgPath srcs genSrcs testSrcs).
Proof. unfold testPipeline. repeat constructor; discriminate. Qed.

(** C7, as the code has it.  The pass appends the name of every
    plugin-flagged Package module to the process-wide list, in traversal
    order.  A Binary flagged primary builder takes exactly that list as its
    dynamic dependencies, and another Binary takes none.  When the list is
    not empty and the primary builder is built in the active stage, it
    emits first one plugin-source-generation action, and no other: its
    argument is the package paths of the plugin-flagged Package modules
    among its dependencies, joined by spaces, and its single output is a
    generated source that the compile action of the binary takes after the
    declared sources. *)
Theorem plugin_list_and_source :
  (forall (order : list moduleInfo) (mods : gmap string Module) (plugins : list string),
      runPluginFinder order mods plugins = plugins ++ pluginNames order mods)
  /\ (forall (plugins : list string) (g : goBinary.t),
        goBinary_DynamicDependencies plugins g
        = if goBinary.PrimaryBuilder (goBinary.properties g) then plugins else [])
  /\ (forall (plugins : list string) (g : goBinary.t) (ctx : ModuleContext.t),
        goBinary.PrimaryBuilder (goBinary.properties g) = true ->
        plugins <> [] ->
        stage (goBinary.config g) = goBinary.buildStage g ->
        let r := goBinary_GenerateBuildActions plugins g ctx in
        let objDir := moduleObjDir ctx in
        let pluginSrc := filepath.Join [objDir; "plugin.go"] in
        exists (p a l c : BuildParams) (tests : list BuildParams),
          ModuleContext.builds r.2
          = ModuleContext.builds ctx ++ p :: tests ++ [a; l; c]
          /\ Rule p = pluginGenSrc
          /\ Outputs p = [pluginSrc]
          /\ Args p !! "plugins"
             = Some (strings.Join (pluginPkgPaths (ModuleContext.deps ctx)) " ")
          /\ Forall (fun b => Rule b <> pluginGenSrc) (tests ++ [a; l; c])
          /\ Rule a = compile
          /\ Outputs a
             = [filepath.Join [objDir; ModuleContext.ModuleName ctx +:+ ".a"]]
          /\ Inputs a
             = pathtools.PrefixPaths (goBinary.Srcs (goBinary.properties g))
                 (moduleSrcDir ctx) ++ [pluginSrc]).
Proof.
  split; [apply runPluginFinder_eq|]. split; [done|].
  intros plugins g ctx Hprimary Hplugins Hstage r objDir pluginSrc.
  destruct (goBinary_generate_emits plugins g ctx) as (Hb & _).
  fold r in Hb. unfold binaryActions in Hb. cbv zeta in Hb.
  rewrite (bool_decide_eq_true_2 _ Hstage) in Hb.
  assert (Hwith : withPlugins plugins g = true).
  { unfold withPlugins. by rewrite Hprimary, (bool_decide_eq_true_2 _ Hplugins). }
  rewrite Hwith in Hb.
  change (filepath.Join [bootstrapDir; ModuleContext.ModuleName ctx; "obj"])
    with (moduleObjDir ctx) in Hb.
  fold objDir pluginSrc in Hb. cbn [app] in Hb.
  eexists _, _, _, _, _. split; [exact Hb|].
  split; [done|]. split; [done|].
  split; [unfold pluginAction; cbn; apply lookup_singleton_eq|].
  split; [|by repeat split].
  apply Forall_app. split.
  - destruct (testsEnabled _ _); [apply testPipeline_rules|constructor].
  - repeat constructor; discriminate.
Qed.

Lemma plugin_list_and_source_witness :
  ltac:(let T := type of (proj2 (proj2 plugin_list_and_source) ["my-plugin"]
                            (exBinary (exConfig StagePrimary false) StagePrimary true)
                            (exBinaryCtx (exConfig StagePrimary false))) in
        let T := eval cbv zeta in T in
        let P := instance_of T in exact P).
Proof.
  repeat (split; [done|]). by apply (proj2 (proj2 plugin_list_and_source)).
Defined.

(** C7, as stated, fails twice.  The list holds module names, not
    package identifiers: the plugin package named [my-plugin] has the
    package path [example.com/builder/plugin], and the pass records
    [my-plugin].  And a non-empty list is not enough for the action: a
    primary builder of stage Primary emits no plugin-source-generation
    action when the active stage is Main. *)
Lemma plugin_list_and_source_counterexample :
  let cfg := exConfig StageMain false in
  let g := exBinary cfg StagePrimary true in
  runPluginFinder exPluginOrder (exPluginMods cfg) [] = ["my-plugin"]
  /\ ["my-plugin"] <> [goPackage.PkgPath exPluginProps]
  /\ goBinary.PrimaryBuilder (goBinary.properties g) = true
  /\ goBinary_DynamicDependencies ["my-plugin"] g = ["my-plugin"]
  /\ Forall (fun b => Rule b <> pluginGenSrc)
       (ModuleContext.builds
          (goBinary_GenerateBuildActions ["my-plugin"] g (exBinaryCtx cfg)).2)
  /\ ModuleContext.builds
       (goBinary_GenerateBuildActions ["my-plugin"] g (exBinaryCtx cfg)).2 <> [].
Proof.
  vm_compute. repeat split; try discriminate.
  repeat constructor; discriminate.
Qed.

(** ** The primary builder *)

Lemma visitBinary_primaryBuilders (modules : list (string * Module)) (acc : binaries) :
  primaryBuilders
    (fold_left visitBinary
       (List.filter (fun m => isBootstrapBinaryModule m.2) modules) acc)
  = primaryBuilders acc ++ flaggedBinaries modules.
Proof.
  unfold flaggedBinaries. revert acc.
  induction modules as [|[n m] modules IH]; intros acc; cbn [List.filter omap list_omap].
  - cbn. by rewrite app_nil_r.
  - destruct m as [g|b|]; cbn; try apply IH.
    rewrite IH. cbn.
    destruct (goBinary.PrimaryBuilder (goBinary.properties b)); [|done].
    by rewrite <- app_assoc.
Qed.

Lemma report_each (l : list (string * goBinary.t)) (ctx : SingletonContext.t) :
  let ctx' :=
    fold_left
      (fun ctx primaryBuilder =>
         SingletonContext.ModuleErrorf ctx primaryBuilder.1
           ("<-- module " +:+ primaryBuilder.1))
      l ctx in
  SingletonContext.errs ctx'
  = SingletonContext.errs ctx
    ++ map (fun n => SingletonContext.ModuleError n ("<-- module " +:+ n)) (map fst l)
  /\ SingletonContext.builds ctx' = SingletonContext.builds ctx
  /\ SingletonContext.buildDir ctx' = SingletonContext.buildDir ctx.
Proof.
  revert ctx. induction l as [|[n b] l IH]; intros ctx; cbn.
  - by rewrite app_nil_r.
  - destruct (IH (SingletonContext.ModuleErrorf ctx n ("<-- module " +:+ n)))
      as (He & Hb & Hd).
    cbn in He, Hb, Hd. rewrite He, Hb, Hd. by rewrite <- app_assoc.
Qed.

Lemma singleton_wire_result (s : singleton) (ctx : SingletonContext.t)
    (primaryBuilderName primaryBuilderExtraFlags : string)
    (rebootstrapDeps primaryRebootstrapDeps : list string) :
  let ctx' := singleton_wire s ctx primaryBuilderName primaryBuilderExtraFlags
                rebootstrapDeps primaryRebootstrapDeps in
  SingletonContext.errs ctx' = SingletonContext.errs ctx
  /\ last (SingletonContext.builds ctx') = Some terminalAction.
Proof.
  unfold singleton_wire. cbv zeta.
  destruct (SingletonContext.VisitAllModulesIf _ _ _ _) as [rb prb].
  destruct (stage (singleton_config s)); cbn;
    try destruct (String.eqb primaryBuilderName "minibp"); cbn;
    (split; [done|]); by rewrite last_snoc.
Qed.

(** C1. With two or more Binary modules flagged primary builder, the
    singleton reports the configuration error, then one error against each
    flagged module, naming it, and adds no action at all (so no terminal
    action either) and sets no build directory.  With none flagged it
    reports no error and wires the stages for the builder [minibp] with
    the flag [-p]: the terminal action comes last, and [minibp] is what the
    Primary stage runs for the documentation and what the Main stage copies
    to the [bin] directory. *)
Theorem primary_builder_count (s : singleton) (ctx : SingletonContext.t) :
  let names := map fst (flaggedBinaries (SingletonContext.modules ctx)) in
  let ctx' := singleton_GenerateBuildActions s ctx in
  (2 <= List.length names ->
   SingletonContext.errs ctx'
   = SingletonContext.errs ctx
     ++ SingletonContext.Error "multiple primary builder modules present:"
        :: map (fun n => SingletonContext.ModuleError n ("<-- module " +:+ n)) names
   /\ SingletonContext.builds ctx' = SingletonContext.builds ctx
   /\ SingletonContext.buildDir ctx' = SingletonContext.buildDir ctx)
  /\ (names = [] ->
      SingletonContext.errs ctx' = SingletonContext.errs ctx
      /\ (exists rebootstrapDeps primaryRebootstrapDeps : list string,
             ctx' = singleton_wire s ctx "minibp" "-p"
                      rebootstrapDeps primaryRebootstrapDeps)
      /\ last (SingletonContext.builds ctx') = Some terminalAction
      /\ (stage (singleton_config s) = StagePrimary ->
          exists rule : blueprint.Rule,
            In (build rule [filepath.Join [docsDir; "minibp.html"]] []
                  [filepath.Join ["$BinDir"; "minibp"]] ∅)
               (SingletonContext.builds ctx'))
      /\ (stage (singleton_config s) = StageMain ->
          In (build cp [filepath.Join ["$buildDir"; "bin"; "minibp"]]
                [filepath.Join ["$BinDir"; "minibp"]] [] ∅)
             (SingletonContext.builds ctx'))).
Proof.
  intros names ctx'. subst ctx'. unfold singleton_GenerateBuildActions.
  cbv zeta.
  set (found := SingletonContext.VisitAllModulesIf ctx isBootstrapBinaryModule
                  visitBinary _).
  assert (Hfound : primaryBuilders found
                   = flaggedBinaries (SingletonContext.modules ctx)).
  { unfold found, SingletonContext.VisitAllModulesIf.
    by rewrite visitBinary_primaryBuilders. }
  rewrite Hfound. clear Hfound. subst names.
  destruct (flaggedBinaries (SingletonContext.modules ctx)) as [|b1 [|b2 bs]].
  - split; [cbn; lia|]. intros _.
    match goal with
    | |- context [singleton_wire s ctx "minibp" "-p" ?rb ?prb] =>
        set (wired := singleton_wire s ctx "minibp" "-p" rb prb);
        pose proof (singleton_wire_result s ctx "minibp" "-p" rb prb) as [He Hl];
        fold wired in He, Hl;
        assert (Hw : wired = singleton_wire s ctx "minibp" "-p" rb prb) by done
    end.
    split; [exact He|]. split; [by eexists _, _|]. split; [exact Hl|].
    clear He Hl. unfold singleton_wire in Hw. cbv zeta in Hw.
    destruct (SingletonContext.VisitAllModulesIf ctx isGoTestProducer _ _)
      as [rb' prb'].
    split; intros Hstage; rewrite Hstage in Hw; rewrite Hw; cbn.
    + eexists. find_in.
    + find_in.
  - split; [cbn; lia|]. intros Hnil. discriminate Hnil.
  - split; [|intros Hnil; discriminate Hnil]. intros _.
    pose proof (report_each (b1 :: b2 :: bs)
                  (SingletonContext.Errorf ctx
                     "multiple primary builder modules present:")) as H.
    cbv zeta in H. destruct H as (He & Hb & Hd).
    rewrite He, Hb, Hd. cbn. by rewrite <- app_assoc.
Qed.

Lemma primary_builder_count_witness :
  ltac:(let T := type of (proj1 (primary_builder_count
                            {| singleton_config := exConfig StageMain true |}
                            (SingletonContext.start
                               (exModules (exConfig StageMain true) true true)))) in
        let T := eval cbv zeta in T in
        let P := instance_of T in exact P)
  /\ ltac:(let T := type of (proj2 (primary_builder_count
                               {| singleton_config := exConfig StageMain true |}
                               (SingletonContext.start
                                  (exModules (exConfig StageMain true) false false)))) in
           let T := eval cbv zeta in T in
           let P := instance_of T in exact P).
Proof.
  split.
  - split; [vm_compute; lia|]. apply (proj1 (primary_builder_count _ _)).
    vm_compute; lia.
  - split; [reflexivity|]. by apply (proj2 (primary_builder_count _ _)).
Defined.

(** ** A module without a package path *)

Lemma generateModule_frame (plugins : list string) (mi : moduleInfo)
    (mods : gmap string Module) :
  exists (mods' : gmap string Module) (nb : list BuildParams)
         (ne : list (string * string)),
    forall (b : list BuildParams) (e : list (string * string)),
      generateModule plugins {| gen_mods := mods; gen_builds := b; gen_errs := e |} mi
      = {| gen_mods := mods'; gen_builds := b ++ nb; gen_errs := e ++ ne |}.
Proof.
  unfold generateModule. cbn [gen_mods gen_builds gen_errs].
  destruct (mods !! name mi) as [module|].
  - destruct (Module_GenerateBuildActions _ _ _) as [module' ctx'].
    by eexists _, _, _.
  - exists mods, [], []. intros b e. by rewrite !app_nil_r.
Qed.

Lemma generateModuleBuildActions_frame (plugins : list string)
    (order : list moduleInfo) (mods : gmap string Module) :
  exists (mods' : gmap string Module) (nb : list BuildParams)
         (ne : list (string * string)),
    forall (b : list BuildParams) (e : list (string * string)),
      generateModuleBuildActions plugins order
        {| gen_mods := mods; gen_builds := b; gen_errs := e |}
      = {| gen_mods := mods'; gen_builds := b ++ nb; gen_errs := e ++ ne |}.
Proof.
  unfold generateModuleBuildActions. revert mods.
  induction order as [|mi order IH]; intros mods.
  - exists mods, [], []. intros b e. by rewrite !app_nil_r.
  - destruct (generateModule_frame plugins mi mods) as (m1 & nb1 & ne1 & H1).
    destruct (IH m1) as (m2 & nb2 & ne2 & H2).
    exists m2, (nb1 ++ nb2), (ne1 ++ ne2). intros b e.
    cbn [fold_left]. by rewrite H1, H2, !app_assoc.
Qed.

(** C3. A Package module without a package path reports one error
    against itself, emits nothing and is left as it was.  In a generation
    pass over the graph every other module is generated as if the failing
    module were not there: the modules and the actions at the end are those
    of the pass without it, and so are the errors, but for the one error of
    the failing module at its place. *)
Theorem empty_pkgPath_fails_alone :
  (forall (g : goPackage.t) (ctx : ModuleContext.t),
      goPackage.PkgPath (goPackage.properties g) = "" ->
      let r := goPackage_GenerateBuildActions g ctx in
      r.1 = g
      /\ ModuleContext.builds r.2 = ModuleContext.builds ctx
      /\ ModuleContext.errs r.2
         = ModuleContext.errs ctx
           ++ ["module " +:+ ModuleContext.ModuleName ctx
               +:+ " did not specify a valid pkgPath"])
  /\ (forall (plugins : list string) (before after : list moduleInfo)
             (mi : moduleInfo) (st : generation) (g : goPackage.t),
        gen_mods (generateModuleBuildActions plugins before st) !! name mi
        = Some (GoPackage g) ->
        goPackage.PkgPath (goPackage.properties g) = "" ->
        let full := generateModuleBuildActions plugins (before ++ mi :: after) st in
        let others := generateModuleBuildActions plugins (before ++ after) st in
        gen_mods full = gen_mods others
        /\ gen_builds full = gen_builds others
        /\ exists e1 e2 : list (string * string),
             gen_errs (generateModuleBuildActions plugins before st) = e1
             /\ gen_errs others = e1 ++ e2
             /\ gen_errs full
                = e1 ++ (name mi, "module " +:+ name mi
                                  +:+ " did not specify a valid pkgPath") :: e2).
Proof.
  split.
  - intros g ctx Hempty r. subst r. unfold goPackage_GenerateBuildActions.
    by rewrite Hempty.
  - intros plugins before after mi st g Hlook Hempty full others.
    subst full others. unfold generateModuleBuildActions in *.
    rewrite !fold_left_app. cbn [fold_left].
    set (st1 := fold_left (generateModule plugins) before st) in *.
    destruct st1 as [m1 b1 e1]. cbn [gen_mods gen_errs] in *.
    assert (Hstep : generateModule plugins
                      {| gen_mods := m1; gen_builds := b1; gen_errs := e1 |} mi
                    = {| gen_mods := m1; gen_builds := b1;
                         gen_errs := e1 ++ [(name mi, "module " +:+ name mi
                                             +:+ " did not specify a valid pkgPath")] |}).
    { unfold generateModule. cbn [gen_mods gen_builds gen_errs]. rewrite Hlook.
      unfold Module_GenerateBuildActions, goPackage_GenerateBuildActions.
      rewrite Hempty. cbn. by rewrite insert_id, app_nil_r. }
    rewrite Hstep.
    destruct (generateModuleBuildActions_frame plugins after m1)
      as (m2 & nb & ne & Hrun).
    unfold generateModuleBuildActions in Hrun. rewrite !Hrun.
    cbn [gen_mods gen_builds gen_errs].
    split; [done|]. split; [done|].
    exists e1, ne. split; [done|]. split; [done|]. by rewrite <- app_assoc.
Qed.

Lemma empty_pkgPath_fails_alone_witness :
  ltac:(let T := type of (proj2 empty_pkgPath_fails_alone []
                            [ {| name := "blueprint-parser"; dir := ".";
                                 directDeps := []; depsDepthFirst := [] |} ]
                            [ {| name := "blueprint-deptools"; dir := "deptools";
                                 directDeps := ["blueprint-parser"];
                                 depsDepthFirst := ["blueprint-parser"] |} ]
                            {| name := "bad"; dir := "bad";
                               directDeps := ["blueprint-parser"];
                               depsDepthFirst := ["blueprint-parser"] |}
                            (exGeneration (exConfig StagePrimary true))
                            (goPackage.new (exConfig StagePrimary true) exBadProps)) in
        let T := eval cbv zeta in T in
        let P := instance_of T in exact P).
Proof.
  split; [by vm_compute|]. split; [done|].
  apply (proj2 empty_pkgPath_fails_alone _ _ _ _ _
           (goPackage.new (exConfig StagePrimary true) exBadProps));
    [by vm_compute | done].
Defined.

(** ** Stage propagation *)

Lemma moduleStage_force (module : Module) :
  moduleStage (forceBootstrap module) = toBootstrap <$> moduleStage module.
Proof. by destruct module. Qed.

Lemma force_without_stage (module : Module) :
  moduleStage module = None -> forceBootstrap module = module.
Proof. by destruct module. Qed.

Section Propagation.

Context (mods : gmap string Module).

Lemma stageOf_alter (dep x : string) :
  stageOf (alter forceBootstrap dep mods) x
  = if decide (dep = x) then toBootstrap <$> stageOf mods x else stageOf mods x.
Proof.
  unfold stageOf. rewrite lookup_alter. case_decide; [subst dep|done].
  destruct (mods !! x) as [m|]; [|done]. cbn. apply moduleStage_force.
Qed.

Lemma lookup_alter_without_stage (dep x : string) :
  stageOf mods x = None ->
  alter forceBootstrap dep mods !! x = mods !! x.
Proof.
  unfold stageOf. intros Hnone. rewrite lookup_alter. case_decide; [subst dep|done].
  destruct (mods !! x) as [m|]; [|done]. cbn in *.
  by rewrite force_without_stage.
Qed.

End Propagation.

Lemma stageOf_visit (deps : list string) (mods : gmap string Module) (x : string) :
  stageOf (VisitDirectDeps deps forceBootstrap mods) x
  = if bool_decide (x ∈ deps) then toBootstrap <$> stageOf mods x
    else stageOf mods x.
Proof.
  unfold VisitDirectDeps. revert mods.
  induction deps as [|d deps IH]; intros mods; [done|].
  cbn [fold_left]. rewrite IH, stageOf_alter.
  destruct (decide (d = x)) as [->|Hne].
  - rewrite (bool_decide_eq_true_2 (x ∈ x :: deps)) by left.
    case_bool_decide; [|done]. by destruct (stageOf mods x).
  - case_bool_decide as Hin.
    + rewrite bool_decide_eq_true_2; [done|by right].
    + rewrite bool_decide_eq_false_2; [done|].
      intros [?|?]%elem_of_cons; congruence.
Qed.

Lemma lookup_visit_without_stage (deps : list string) (mods : gmap string Module)
    (x : string) :
  stageOf mods x = None ->
  VisitDirectDeps deps forceBootstrap mods !! x = mods !! x.
Proof.
  unfold VisitDirectDeps. revert mods.
  induction deps as [|d deps IH]; intros mods Hnone; [done|].
  cbn [fold_left]. rewrite IH.
  - by apply lookup_alter_without_stage.
  - rewrite stageOf_alter, Hnone. by case_decide.
Qed.

(** The stage of every module after one application of the mutator. *)
Lemma stageOf_propagate (self : string) (deps : list string)
    (mods : gmap string Module) (x : string) :
  stageOf (propagateStageBootstrap self deps mods) x
  = if bool_decide (stageOf mods self = Some StageBootstrap) && bool_decide (x ∈ deps)
    then toBootstrap <$> stageOf mods x
    else stageOf mods x.
Proof.
  unfold propagateStageBootstrap.
  destruct (mods !! self ≫= asBootstrapGoCore) as [core|] eqn:Hcore.
  - assert (Hs : stageOf mods self = Some (bootstrapGoCore.BuildStage core)).
    { unfold stageOf, moduleStage.
      destruct (mods !! self) as [m|]; cbn in *; [by rewrite Hcore|done]. }
    rewrite Hs.
    destruct (decide (bootstrapGoCore.BuildStage core = StageBootstrap)) as [Hb|Hb].
    + rewrite (bool_decide_eq_false_2 _ (fun H => H Hb)).
      rewrite bool_decide_eq_true_2 by congruence. cbn. apply stageOf_visit.
    + rewrite (bool_decide_eq_true_2 _ Hb).
      rewrite bool_decide_eq_false_2 by congruence. done.
  - assert (Hs : stageOf mods self = None).
    { unfold stageOf, moduleStage.
      destruct (mods !! self) as [m|]; cbn in *; [by rewrite Hcore|done]. }
    rewrite Hs. by rewrite bool_decide_eq_false_2.
Qed.

Lemma lookup_propagate_without_stage (self : string) (deps : list string)
    (mods : gmap string Module) (x : string) :
  stageOf mods x = None ->
  propagateStageBootstrap self deps mods !! x = mods !! x.
Proof.
  intros Hnone. unfold propagateStageBootstrap.
  destruct (mods !! self ≫= asBootstrapGoCore) as [core|]; [|done].
  case_bool_decide; [done|]. by apply lookup_visit_without_stage.
Qed.

Section Pass.

Context (x : string).

(** The pass never takes the Bootstrap stage away. *)
Lemma pass_keeps_bootstrap (order : list moduleInfo) (mods : gmap string Module) :
  stageOf mods x = Some StageBootstrap ->
  stageOf (runStagePropagation order mods) x = Some StageBootstrap.
Proof.
  unfold runStagePropagation. revert mods.
  induction order as [|mi order IH]; intros mods Hx; [done|].
  cbn [fold_left]. apply IH. rewrite stageOf_propagate, Hx.
  by destruct (_ && _).
Qed.

(** The pass gives no stage to a module without one, and leaves such a
    module as it is. *)
Lemma pass_without_stage (order : list moduleInfo) (mods : gmap string Module) :
  stageOf mods x = None ->
  stageOf (runStagePropagation order mods) x = None
  /\ runStagePropagation order mods !! x = mods !! x.
Proof.
  unfold runStagePropagation. revert mods.
  induction order as [|mi order IH]; intros mods Hx; [done|].
  cbn [fold_left].
  assert (Hstep : stageOf (propagateStageBootstrap (name mi) (directDeps mi) mods) x
                  = None).
  { rewrite stageOf_propagate, Hx. by destruct (_ && _). }
  destruct (IH _ Hstep) as [H1 H2]. split; [done|].
  rewrite H2. by apply lookup_propagate_without_stage.
Qed.

Lemma pass_keeps_staged (order : list moduleInfo) (mods : gmap string Module) :
  is_Some (stageOf mods x) ->
  is_Some (stageOf (runStagePropagation order mods) x).
Proof.
  unfold runStagePropagation. revert mods.
  induction order as [|mi order IH]; intros mods Hx; [done|].
  cbn [fold_left]. apply IH. rewrite stageOf_propagate.
  destruct (_ && _); [|done]. destruct Hx as [s ->]. by eexists.
Qed.

(** Visits of modules that do not have [x] among their direct
    dependencies leave the stage of [x] as it is. *)
Lemma pass_elsewhere (order : list moduleInfo) (mods : gmap string Module) :
  forallb (fun mj => bool_decide (x ∉ directDeps mj)) order = true ->
  stageOf (runStagePropagation order mods) x = stageOf mods x.
Proof.
  unfold runStagePropagation. revert mods.
  induction order as [|mi order IH]; intros mods Hnot; [done|].
  cbn [fold_left forallb] in *. apply andb_true_iff in Hnot as [Hmi Hrest].
  rewrite (IH _ Hrest), stageOf_propagate.
  apply bool_decide_eq_true in Hmi.
  rewrite (bool_decide_eq_false_2 (x ∈ directDeps mi)) by done.
  by rewrite andb_false_r.
Qed.

End Pass.

(** After a top-down pass, a module in the Bootstrap stage has every
    direct dependency that has a stage in the Bootstrap stage. *)
Lemma pass_direct (order : list moduleInfo) (mods : gmap string Module)
    (mi : moduleInfo) (b : string) :
  topDown order = true ->
  In mi order -> In b (directDeps mi) ->
  is_Some (stageOf mods b) ->
  stageOf (runStagePropagation order mods) (name mi) = Some StageBootstrap ->
  stageOf (runStagePropagation order mods) b = Some StageBootstrap.
Proof.
  revert mods. induction order as [|mj order IH]; intros mods Htop Hmi Hb Hsome Hfinal;
    [destruct Hmi|].
  cbn [topDown] in Htop. apply andb_true_iff in Htop as [Hhere Hrest].
  change (runStagePropagation (mj :: order) mods)
    with (runStagePropagation order
            (propagateStageBootstrap (name mj) (directDeps mj) mods)).
  destruct Hmi as [->|Hmi].
  - rewrite (pass_elsewhere (name mi) (mi :: order) mods Hhere) in Hfinal.
    apply pass_keeps_bootstrap. rewrite stageOf_propagate.
    rewrite (bool_decide_eq_true_2 _ Hfinal).
    rewrite bool_decide_eq_true_2 by by apply list_elem_of_In.
    cbn. destruct Hsome as [s ->]. done.
  - change (runStagePropagation (mj :: order) mods)
      with (runStagePropagation order
              (propagateStageBootstrap (name mj) (directDeps mj) mods)) in Hfinal.
    apply IH; try done.
    rewrite stageOf_propagate. destruct (_ && _); [|done].
    destruct Hsome as [s ->]. by eexists.
Qed.

(** A module is in the Bootstrap stage only if it was there from the
    start or a module that was there from the start reaches it. *)
Lemma pass_sound (order part : list moduleInfo) (mods cur : gmap string Module) :
  (forall mi, In mi part -> In mi order) ->
  (forall x, is_Some (stageOf cur x) -> is_Some (stageOf mods x)) ->
  (forall x, stageOf cur x = Some StageBootstrap ->
             stageOf mods x = Some StageBootstrap
             \/ exists a, stageOf mods a = Some StageBootstrap
                          /\ tc (stagedDependsOn order mods) a x) ->
  forall x, stageOf (runStagePropagation part cur) x = Some StageBootstrap ->
            stageOf mods x = Some StageBootstrap
            \/ exists a, stageOf mods a = Some StageBootstrap
                         /\ tc (stagedDependsOn order mods) a x.
Proof.
  unfold runStagePropagation. revert cur.
  induction part as [|mi part IH]; intros cur Hsub Hsome Hinv x Hx; [by apply Hinv|].
  cbn [fold_left] in Hx. revert x Hx. apply IH.
  - intros mj Hmj. apply Hsub. by right.
  - intros x. rewrite stageOf_propagate. destruct (_ && _); [|by apply Hsome].
    intros [s Hs]. apply Hsome. destruct (stageOf cur x); [by eexists|done].
  - intros x. rewrite stageOf_propagate.
    destruct (bool_decide (stageOf cur (name mi) = Some StageBootstrap)) eqn:Hself;
      [|by apply Hinv].
    destruct (bool_decide (x ∈ directDeps mi)) eqn:Hdep; [|by apply Hinv].
    cbn [andb]. intros Hx.
    apply bool_decide_eq_true in Hself, Hdep. apply list_elem_of_In in Hdep.
    assert (Hstaged : is_Some (stageOf mods x)).
    { apply Hsome. destruct (stageOf cur x); [by eexists|done]. }
    assert (Hedge : stagedDependsOn order mods (name mi) x).
    { split; [|done]. exists mi. split; [apply Hsub; by left|done]. }
    right. destruct (Hinv _ Hself) as [Hstart|(a & Ha & Hreach)].
    + exists (name mi). split; [done|by apply tc_once].
    + exists a. split; [done|]. eapply tc_r; eauto.
Qed.

(** The mutator leaves the modules as they are when the module it runs
    at has no stage or is of another stage than Bootstrap. *)
Lemma propagate_not_bootstrap (self : string) (deps : list string)
    (mods : gmap string Module) :
  stageOf mods self <> Some StageBootstrap ->
  propagateStageBootstrap self deps mods = mods.
Proof.
  intros Hne. unfold propagateStageBootstrap.
  destruct (mods !! self ≫= asBootstrapGoCore) as [core|] eqn:Hcore; [|done].
  case_bool_decide as Hb; [done|]. destruct Hne.
  unfold stageOf, moduleStage.
  destruct (mods !! self) as [m|]; cbn in *; [|done].
  rewrite Hcore. cbn. f_equal.
  by destruct (decide (bootstrapGoCore.BuildStage core = StageBootstrap)).
Qed.

(** C2, as the code has it.  One application of the mutator at a module
    of the Bootstrap stage puts every direct dependency that has a stage
    into the Bootstrap stage; at a module without a stage, or of another
    stage, it changes nothing.  After a top-down pass, every module reached
    from a module of the Bootstrap stage through dependencies that all have
    a stage is in the Bootstrap stage.  A module without a stage is left as
    it is, and the pass does not propagate through it: a module is in the
    Bootstrap stage after the pass only if it was there before, or a module
    that was there before reaches it through dependencies that all have a
    stage. *)
Theorem bootstrap_stage_propagates (order : list moduleInfo)
    (mods : gmap string Module) :
  topDown order = true ->
  let mods' := runStagePropagation order mods in
  (forall (self : string) (deps : list string) (m : gmap string Module) (d : string),
      stageOf m self = Some StageBootstrap ->
      In d deps ->
      is_Some (stageOf m d) ->
      stageOf (propagateStageBootstrap self deps m) d = Some StageBootstrap)
  /\ (forall a b : string,
        stageOf mods' a = Some StageBootstrap ->
        tc (stagedDependsOn order mods) a b ->
        stageOf mods' b = Some StageBootstrap)
  /\ (forall n : string, stageOf mods n = None -> mods' !! n = mods !! n)
  /\ (forall (self : string) (deps : list string) (m : gmap string Module),
        stageOf m self <> Some StageBootstrap ->
        propagateStageBootstrap self deps m = m)
  /\ (forall x : string,
        stageOf mods' x = Some StageBootstrap ->
        stageOf mods x = Some StageBootstrap
        \/ exists a : string,
             stageOf mods a = Some StageBootstrap
             /\ tc (stagedDependsOn order mods) a x).
Proof.
  intros Htop mods'. split; [|split; [|split; [|split]]].
  - intros self deps m d Hself Hd [s Hs].
    rewrite stageOf_propagate, Hs.
    rewrite (bool_decide_eq_true_2 _ Hself).
    rewrite bool_decide_eq_true_2 by by apply list_elem_of_In.
    done.
  - intros a b Ha Htc. induction Htc as [a b Hstep|a b c Hstep _ IH].
    + destruct Hstep as [(mi & Hmi & <- & Hb) Hsome].
      by apply (pass_direct order mods mi b).
    + apply IH. destruct Hstep as [(mi & Hmi & <- & Hb) Hsome].
      by apply (pass_direct order mods mi b).
  - intros n Hn. by apply pass_without_stage.
  - intros self deps m. apply propagate_not_bootstrap.
  - apply (pass_sound order order mods mods); [done|done|]. intros y Hy. by left.
Qed.

Lemma bootstrap_stage_propagates_witness :
  ltac:(let T := type of (bootstrap_stage_propagates exForeignOrder
                            (exForeignMods (exConfig StageBootstrap false))) in
        let T := eval cbv zeta in T in
        let P := instance_of T in exact P).
Proof. split; [reflexivity | by apply bootstrap_stage_propagates]. Defined.

(** C2, as stated, fails: a binary of the Bootstrap stage depends on a
    module of a foreign type, which depends on a package.  The package is a
    transitive dependency of the binary and has a stage, and after the
    top-down pass its stage is still Primary; the package that the binary
    depends on directly is in the Bootstrap stage. *)
Lemma bootstrap_stage_stops_at_foreign_module :
  let mods := exForeignMods (exConfig StageBootstrap false) in
  let mods' := runStagePropagation exForeignOrder mods in
  topDown exForeignOrder = true
  /\ stageOf mods' "minibp" = Some StageBootstrap
  /\ tc (dependsOn exForeignOrder) "minibp" "lib"
  /\ stageOf mods' "lib" = Some StagePrimary
  /\ stageOf mods' "blueprint-parser" = Some StageBootstrap.
Proof.
  cbv zeta. repeat split; try (vm_compute; reflexivity).
  apply (tc_l _ _ "gen").
  - eexists. split; [left; reflexivity|]. split; [reflexivity|]. by left.
  - apply tc_once. eexists. split; [right; left; reflexivity|].
    split; [reflexivity|]. by left.
Qed.

(** ** Evaluations

    The path functions on the cases that the documentation of Go's
    [path/filepath] lists, and the emitting functions on the concrete
    inputs above. *)

Example Clean_cases :
  map filepath.Clean
    [""; "/"; "./"; "a//b/./c/"; "a/../../b"; "/../a"; "../.."; "a/b/../.."; "abc/def/.."]
  = ["."; "/"; "."; "a/b/c"; "../b"; "/a"; "../.."; "."; "abc"].
Proof. reflexivity. Qed.

Example Join_cases :
  map filepath.Join
    [ ["$buildDir/.bootstrap"; "bin"; "gotestmain"]; ["$srcDir"; "."];
      ["a/b"; "../c"; ""; "d/"]; [""; ""]; [""; "a"]; ["$BinDir"; "minibp"] ]
  = [ "$buildDir/.bootstrap/bin/gotestmain"; "$srcDir"; "a/c/d"; ""; "a";
      "$BinDir/minibp" ].
Proof. reflexivity. Qed.

Example Dir_cases :
  map filepath.Dir ["$srcDir/parser/parser_test.go"; "a"; "/a"; "a/b/"; ""]
  = ["$srcDir/parser"; "."; "/"; "a/b"; "."].
Proof. reflexivity. Qed.

Example Base_cases :
  map filepath.Base ["/src/blueprint/Blueprints"; "a/b/"; "///"; ""; "Blueprints"]
  = ["Blueprints"; "b"; "/"; "."; "Blueprints"].
Proof. reflexivity. Qed.

(** The parser package, built in the active stage with tests: the five
    actions of the pipeline, then the archive. *)
Example parser_generation :
  let r := goPackage_GenerateBuildActions
             (exParser (exConfig StagePrimary true)) exParserCtx in
  map Outputs (ModuleContext.builds r.2)
  = [ ["$buildDir/.bootstrap/blueprint-parser/test/github.com/google/blueprint/parser.a"];
      ["$buildDir/.bootstrap/blueprint-parser/test/test.go"];
      ["$buildDir/.bootstrap/blueprint-parser/test/test.a"];
      ["$buildDir/.bootstrap/blueprint-parser/test/test"];
      ["$buildDir/.bootstrap/blueprint-parser/test/test.passed"];
      ["$buildDir/.bootstrap/blueprint-parser/pkg/github.com/google/blueprint/parser.a"] ]
  /\ ModuleContext.errs r.2 = [].
Proof. by vm_compute. Qed.

(** The binary as a placeholder in the Main stage. *)
Example binary_placeholder :
  let cfg := exConfig StageMain false in
  let r := goBinary_GenerateBuildActions []
             (exBinary cfg StagePrimary false) (exBinaryCtx cfg) in
  map (fun a => (Outputs a, Inputs a, Implicits a)) (ModuleContext.builds r.2)
  = [ (["$BinDir/builder"], ["$srcDir/cmd/builder/main.go"],
       ["$buildDir/.bootstrap/blueprint-parser/pkg/github.com/google/blueprint/parser.a";
        "$buildDir/.bootstrap/my-plugin/pkg/example.com/builder/plugin.a"]);
      (["$srcDir/cmd/builder/main.go"], [], []);
      (["$buildDir/.bootstrap/builder/obj/a.out"], [], []);
      (["$buildDir/.bootstrap/builder/obj/builder.a"], [], []) ].
Proof. by vm_compute. Qed.


(** ** Further properties *)

(** A Binary module built in the active stage ends with three actions:
    the compile of its archive, the link of the archive into [a.out] with
    one library directory per Package dependency (and no such argument
    without any), and the copy of [a.out] to the binary directory under the
    module's name. *)
Theorem binary_links_and_copies (plugins : list string) (g : goBinary.t)
    (ctx : ModuleContext.t) :
  stage (goBinary.config g) = goBinary.buildStage g ->
  let r := goBinary_GenerateBuildActions plugins g ctx in
  let name := ModuleContext.ModuleName ctx in
  let archive := filepath.Join [moduleObjDir ctx; name +:+ ".a"] in
  let aout := filepath.Join [moduleObjDir ctx; "a.out"] in
  exists (before : list BuildParams) (a l c : BuildParams),
    ModuleContext.builds r.2 = ModuleContext.builds ctx ++ before ++ [a; l; c]
    /\ Rule a = compile /\ Outputs a = [archive]
    /\ Rule l = link /\ Inputs l = [archive] /\ Outputs l = [aout]
    /\ Implicits l = ["$linkCmd"]
    /\ Args l !! "libDirFlags"
       = match packageRoots (ModuleContext.deps ctx) with
         | [] => None
         | roots => Some (strings.Join (map (String.append "-L ") roots) " ")
         end
    /\ Rule c = cp /\ Inputs c = [aout]
    /\ Outputs c = [filepath.Join ["$BinDir"; name]].
Proof.
  intros Hstage r name archive aout.
  destruct (goBinary_generate_emits plugins g ctx) as (Hb & _).
  fold r in Hb. unfold binaryActions in Hb. cbv zeta in Hb.
  rewrite (bool_decide_eq_true_2 _ Hstage) in Hb.
  change (filepath.Join [bootstrapDir; ModuleContext.ModuleName ctx; "obj"])
    with (moduleObjDir ctx) in Hb.
  fold name archive aout in Hb.
  rewrite (app_assoc (if withPlugins plugins g then _ else _)) in Hb.
  eexists _, _, _, _. split; [exact Hb|].
  repeat split. unfold linkAction. cbn [Args].
  destruct (packageRoots (ModuleContext.deps ctx)); [done|].
  apply lookup_singleton_eq.
Qed.

Lemma binary_links_and_copies_witness :
  ltac:(let T := type of (binary_links_and_copies []
                            (exBinary (exConfig StagePrimary true) StagePrimary false)
                            (exBinaryCtx (exConfig StagePrimary true))) in
        let T := eval cbv zeta in T in
        let P := instance_of T in exact P).
Proof. split; [done | by apply binary_links_and_copies]. Defined.

Lemma visitTest_bootstrap (modules : list (string * Module))
    (acc : list string * list string) :
  (fold_left visitTest
     (List.filter (fun m => isGoTestProducer m.2) modules) acc).1
  = acc.1 ++ bootstrapTestTargets modules.
Proof.
  unfold bootstrapTestTargets. revert acc.
  induction modules as [|[n m] modules IH]; intros acc;
    cbn [List.filter omap list_omap fold_left].
  - by rewrite app_nil_r.
  - destruct m as [g|g|]; cbn; try apply IH; rewrite IH; unfold visitTest; cbn;
      (destruct (negb (String.eqb _ "")); cbn; [|done]);
      (case_bool_decide; cbn; [by rewrite <- app_assoc|done]).
Qed.

(** In the Bootstrap stage with tests enabled, and no more than one
    Binary flagged primary builder, the first action of the singleton
    regenerates the manifest of the Primary stage: its rule runs [minibp]
    with the [$runTests] variable, its [runTests] argument is [-t], and
    every test archive of a module of the Bootstrap stage is among its
    implicit dependencies. *)
Theorem bootstrap_stage_reruns_tests (s : singleton) (ctx : SingletonContext.t) :
  List.length (flaggedBinaries (SingletonContext.modules ctx)) <= 1 ->
  stage (singleton_config s) = StageBootstrap ->
  runGoTests (singleton_config s) = true ->
  exists (a : BuildParams) (rest : list BuildParams),
    SingletonContext.builds (singleton_GenerateBuildActions s ctx)
    = SingletonContext.builds ctx ++ a :: rest
    /\ Rule a
       = contextRule "primarybp"
           (minibpFile +:+ " --build-primary $runTests -m $bootstrapManifest " +:+
            "--timestamp $timestamp --timestampdep $timestampdep " +:+
            "-b $buildDir -d $outfile.d -o $outfile $in")
           "minibp $outfile" "$outfile.d" false
           ["runTests"; "timestamp"; "timestampdep"; "outfile"]
    /\ Outputs a = [filepath.Join [bootstrapDir; "primary.ninja.in"];
                    filepath.Join [bootstrapDir; "primary.ninja.in"] +:+ ".timestamp"]
    /\ Args a !! "runTests" = Some "-t"
    /\ forall target : string,
         In target (bootstrapTestTargets (SingletonContext.modules ctx)) ->
         In target (Implicits a).
Proof.
  intros Hcount Hstage Hrun.
  assert (Hwire : forall pbName flags rb prb,
             exists (a : BuildParams) (rest : list BuildParams),
               SingletonContext.builds (singleton_wire s ctx pbName flags rb prb)
               = SingletonContext.builds ctx ++ a :: rest
               /\ Rule a
                  = contextRule "primarybp"
                      (minibpFile +:+ " --build-primary $runTests -m $bootstrapManifest " +:+
                       "--timestamp $timestamp --timestampdep $timestampdep " +:+
                       "-b $buildDir -d $outfile.d -o $outfile $in")
                      "minibp $outfile" "$outfile.d" false
                      ["runTests"; "timestamp"; "timestampdep"; "outfile"]
               /\ Outputs a
                  = [filepath.Join [bootstrapDir; "primary.ninja.in"];
                     filepath.Join [bootstrapDir; "primary.ninja.in"] +:+ ".timestamp"]
               /\ Args a !! "runTests" = Some "-t"
               /\ forall target : string,
                    In target (bootstrapTestTargets (SingletonContext.modules ctx)) ->
                    In target (Implicits a)).
  { intros pbName flags rb prb. unfold singleton_wire. cbv zeta.
    rewrite Hstage. unfold runTestsArgs. rewrite Hrun.
    match goal with
    | |- context [SingletonContext.VisitAllModulesIf ctx isGoTestProducer visitTest ?acc] =>
        pose proof (visitTest_bootstrap (SingletonContext.modules ctx) acc) as Hv;
        unfold SingletonContext.VisitAllModulesIf;
        destruct (fold_left visitTest _ acc) as [rb' prb']
    end.
    cbn [fst] in Hv. subst rb'.
    cbn. rewrite <- !app_assoc. cbn [app].
    eexists _, _. split; [reflexivity|].
    split; [done|]. split; [done|].
    split; [cbn [Args build]; by rewrite lookup_insert_eq|].
    intros target Hin. cbn [Implicits build]. apply in_or_app. by right; right. }
  unfold singleton_GenerateBuildActions. cbv zeta.
  set (found := SingletonContext.VisitAllModulesIf ctx isBootstrapBinaryModule
                  visitBinary _).
  assert (Hfound : primaryBuilders found
                   = flaggedBinaries (SingletonContext.modules ctx)).
  { unfold found, SingletonContext.VisitAllModulesIf.
    by rewrite visitBinary_primaryBuilders. }
  rewrite Hfound.
  destruct (flaggedBinaries (SingletonContext.modules ctx)) as [|b1 [|b2 bs]].
  - apply Hwire.
  - apply Hwire.
  - cbn in Hcount. lia.
Qed.

Lemma bootstrap_stage_reruns_tests_witness :
  ltac:(let T := type of (bootstrap_stage_reruns_tests
                            {| singleton_config := exConfig StageBootstrap true |}
                            (SingletonContext.start
                               (exModules (exConfig StageBootstrap true) false true))) in
        let T := eval cbv zeta in T in
        let P := instance_of T in exact P).
Proof.
  split; [vm_compute; lia|]. split; [done|]. split; [done|].
  apply bootstrap_stage_reruns_tests; [vm_compute; lia|done|done].
Defined.

(** ** What stage propagation leaves alone *)

Lemma force_fixed (module : Module) :
  moduleStage module = Some StageBootstrap \/ moduleStage module = None ->
  forceBootstrap module = module.
Proof.
  destruct module as [g|g|]; [| |done]; destruct g; cbn;
    (intros [[= ->]|[=]]; reflexivity).
Qed.

Lemma force_sameButStage (module : Module) :
  sameButStage module (forceBootstrap module).
Proof. by destruct module. Qed.

Lemma force_twice (module : Module) :
  forceBootstrap (forceBootstrap module) = forceBootstrap module.
Proof. by destruct module. Qed.

Lemma lookup_visit (deps : list string) (mods : gmap string Module) (n : string) :
  VisitDirectDeps deps forceBootstrap mods !! n
  = if bool_decide (n ∈ deps) then forceBootstrap <$> mods !! n else mods !! n.
Proof.
  unfold VisitDirectDeps. revert mods.
  induction deps as [|d deps IH]; intros mods; [done|].
  cbn [fold_left]. rewrite IH, lookup_alter.
  destruct (decide (d = n)) as [->|Hne].
  - rewrite (bool_decide_eq_true_2 (n ∈ n :: deps)) by left.
    case_bool_decide; [|done].
    destruct (mods !! n) as [m|]; [|done]. cbn. by rewrite force_twice.
  - case_bool_decide as Hin.
    + rewrite bool_decide_eq_true_2; [done|by right].
    + rewrite bool_decide_eq_false_2; [done|].
      intros [?|?]%elem_of_cons; congruence.
Qed.

(** The entry of a name after the mutator has run at [self]. *)
Lemma lookup_propagate (self : string) (deps : list string)
    (mods : gmap string Module) (n : string) :
  propagateStageBootstrap self deps mods !! n
  = if bool_decide (stageOf mods self = Some StageBootstrap)
       && bool_decide (n ∈ deps)
    then forceBootstrap <$> mods !! n else mods !! n.
Proof.
  unfold propagateStageBootstrap.
  destruct (mods !! self ≫= asBootstrapGoCore) as [core|] eqn:Hcore.
  - assert (Hs : stageOf mods self = Some (bootstrapGoCore.BuildStage core)).
    { unfold stageOf, moduleStage.
      destruct (mods !! self) as [m|]; cbn in *; [by rewrite Hcore|done]. }
    rewrite Hs.
    destruct (decide (bootstrapGoCore.BuildStage core = StageBootstrap)) as [Hb|Hb].
    + rewrite (bool_decide_eq_false_2 _ (fun H => H Hb)).
      rewrite bool_decide_eq_true_2 by congruence. cbn. apply lookup_visit.
    + rewrite (bool_decide_eq_true_2 _ Hb).
      rewrite bool_decide_eq_false_2 by congruence. done.
  - assert (Hs : stageOf mods self = None).
    { unfold stageOf, moduleStage.
      destruct (mods !! self) as [m|]; cbn in *; [by rewrite Hcore|done]. }
    rewrite Hs. by rewrite bool_decide_eq_false_2.
Qed.

(** The mutator writes the stage of the direct dependencies of a module
    of the Bootstrap stage, and nothing else.  Applied at a module without
    a stage, or of another stage, it changes nothing.  Applied at a module
    of the Bootstrap stage, it puts every direct dependency that has a
    stage into the Bootstrap stage and leaves a direct dependency without a
    stage as it is.  In every case a module that is not a direct dependency
    is as before, a direct dependency is as before but for its stage, and
    no module is added or removed. *)
Theorem mutator_writes_stage_of_deps (self : string) (deps : list string)
    (mods : gmap string Module) :
  let mods' := propagateStageBootstrap self deps mods in
  (stageOf mods self <> Some StageBootstrap -> mods' = mods)
  /\ (stageOf mods self = Some StageBootstrap ->
      forall n : string, In n deps ->
        (is_Some (stageOf mods n) -> stageOf mods' n = Some StageBootstrap)
        /\ (stageOf mods n = None -> mods' !! n = mods !! n))
  /\ (forall n : string, ~ In n deps -> mods' !! n = mods !! n)
  /\ (forall n : string,
        match mods !! n, mods' !! n with
        | Some m, Some m' =>
            sameButStage m m'
            /\ (moduleStage m' = moduleStage m
                \/ moduleStage m' = Some StageBootstrap)
        | None, None => True
        | _, _ => False
        end).
Proof.
  intros mods'. subst mods'.
  pose proof (lookup_propagate self deps mods) as Hlook.
  split; [|split; [|split]].
  - apply propagate_not_bootstrap.
  - intros Hself n Hn. split.
    + intros [s Hs]. rewrite stageOf_propagate, Hs.
      rewrite (bool_decide_eq_true_2 _ Hself).
      rewrite bool_decide_eq_true_2 by by apply list_elem_of_In.
      done.
    + apply lookup_propagate_without_stage.
  - intros n Hn. rewrite Hlook.
    rewrite (bool_decide_eq_false_2 (n ∈ deps)); [by rewrite andb_false_r|].
    by rewrite list_elem_of_In.
  - intros n. rewrite Hlook. destruct (mods !! n) as [m|]; [|by destruct (_ && _)].
    destruct (_ && _); cbn.
    + split; [apply force_sameButStage|].
      rewrite moduleStage_force. destruct (moduleStage m); cbn; auto.
    + split; [by destruct m|by left].
Qed.

(** The mutator at the binary of the example: the package that the
    binary depends on directly moves to the Bootstrap stage. *)
Lemma mutator_writes_stage_of_deps_witness :
  ltac:(let T := type of (proj1 (proj2 (mutator_writes_stage_of_deps "minibp"
                                          ["blueprint-parser"; "gen"]
                                          (exForeignMods
                                             (exConfig StageBootstrap false))))) in
        let T := eval cbv zeta in T in
        match T with
        | ?H -> forall n : string, In n _ -> @?C n =>
            exact (H /\ In "blueprint-parser" ["blueprint-parser"; "gen"]
                   /\ C "blueprint-parser")
        end).
Proof.
  split; [reflexivity|]. split; [by left|].
  apply (proj1 (proj2 (mutator_writes_stage_of_deps "minibp"
                         ["blueprint-parser"; "gen"]
                         (exForeignMods (exConfig StageBootstrap false)))));
    [reflexivity|by left].
Defined.

(** ** The pass reaches a fixed point *)

Lemma closed_step (order : list moduleInfo) (mods : gmap string Module)
    (mi : moduleInfo) :
  bootstrapClosed order mods -> In mi order ->
  propagateStageBootstrap (name mi) (directDeps mi) mods = mods.
Proof.
  intros Hclosed Hmi.
  destruct (decide (stageOf mods (name mi) = Some StageBootstrap)) as [Hb|Hb];
    [|by apply propagate_not_bootstrap].
  unfold propagateStageBootstrap.
  destruct (mods !! name mi ≫= asBootstrapGoCore) as [core|]; [|done].
  case_bool_decide; [done|].
  apply map_eq. intros n. rewrite lookup_visit.
  case_bool_decide as Hin; [|done].
  apply list_elem_of_In in Hin.
  pose proof (Hclosed mi n Hmi Hb Hin) as Hn. unfold stageOf in Hn.
  destruct (mods !! n) as [m|]; [|done]. cbn in *. by rewrite force_fixed.
Qed.

Lemma closed_pass (order part : list moduleInfo) (mods : gmap string Module) :
  bootstrapClosed order mods ->
  (forall mi, In mi part -> In mi order) ->
  runStagePropagation part mods = mods.
Proof.
  intros Hclosed. unfold runStagePropagation.
  induction part as [|mi part IH]; intros Hsub; [done|].
  cbn [fold_left]. rewrite (closed_step order mods mi Hclosed) by (apply Hsub; by left).
  apply IH. intros mj Hmj. apply Hsub. by right.
Qed.

(** After a top-down pass the stages are closed under dependencies, and
    the pass has reached its fixed point: a second pass over the same
    modules, in any order, changes nothing. *)
Theorem top_down_pass_is_final (order again : list moduleInfo)
    (mods : gmap string Module) :
  topDown order = true ->
  (forall mi, In mi again -> In mi order) ->
  let mods' := runStagePropagation order mods in
  bootstrapClosed order mods'
  /\ runStagePropagation again mods' = mods'.
Proof.
  intros Htop Hsub mods'.
  assert (Hclosed : bootstrapClosed order mods').
  { intros mi d Hmi Hb Hd.
    destruct (stageOf mods d) as [s|] eqn:Hs.
    - left. by apply (pass_direct order mods mi d).
    - right. by apply pass_without_stage. }
  split; [done|]. by apply (closed_pass order).
Qed.

Lemma top_down_pass_is_final_witness :
  ltac:(let T := type of (top_down_pass_is_final exForeignOrder (rev exForeignOrder)
                            (exForeignMods (exConfig StageBootstrap false))) in
        let T := eval cbv zeta in T in
        let P := instance_of T in exact P).
Proof.
  split; [reflexivity|].
  assert (Hsub : forall mi, In mi (rev exForeignOrder) -> In mi exForeignOrder).
  { intros mi. by rewrite <- in_rev. }
  split; [exact Hsub|]. by apply top_down_pass_is_final.
Defined.

(** ** What action generation leaves alone *)

Lemma goBinary_generate_module (plugins : list string) (g : goBinary.t)
    (ctx : ModuleContext.t) :
  (goBinary_GenerateBuildActions plugins g ctx).1
  = if testsEnabled (goBinary.config g) (goBinary.TestSrcs (goBinary.properties g))
    then goBinary.setTestArchiveFile g
           (filepath.Join [testRoot ctx; ModuleContext.ModuleName ctx +:+ ".a"])
    else g.
Proof.
  unfold goBinary_GenerateBuildActions. rewrite hasTests_testsEnabled.
  cbv zeta.
  destruct (goBinary.PrimaryBuilder _ && Nat.ltb 0 _);
    repeat match goal with
           | |- context [bool_decide ?P] => destruct (bool_decide P)
           | |- context [let '(_, _) := (if ?b then _ else _) in _] => destruct b
           | |- context [let '(_, _) := buildGoTest ?a ?b ?c ?d ?e ?f ?g in _] =>
               destruct (buildGoTest a b c d e f g)
           end;
    reflexivity.
Qed.

(** Action generation fills in derived paths and nothing else: the
    declared properties, the configuration and the stage of a module are
    as before.  A Package without a package path is returned as it was.  A
    Package with a package path has its package root and its archive path
    recorded in every stage, also when it emits placeholders or nothing; a
    Binary has its test archive recorded exactly when testing applies to
    it. *)
Theorem generation_fills_paths_only :
  (forall (g : goPackage.t) (ctx : ModuleContext.t),
      let g' := (goPackage_GenerateBuildActions g ctx).1 in
      let pkgPath := goPackage.PkgPath (goPackage.properties g) in
      goPackage.properties g' = goPackage.properties g
      /\ goPackage.config g' = goPackage.config g
      /\ goPackage.buildStage g' = goPackage.buildStage g
      /\ (pkgPath = "" -> g' = g)
      /\ (pkgPath <> "" ->
          goPackage.GoPkgRoot g' = packageRoot ctx
          /\ goPackage.GoPackageTarget g'
             = filepath.Join [packageRoot ctx; pkgPath +:+ ".a"]
          /\ goPackage.GoTestTarget g'
             = if testsEnabled (goPackage.config g)
                    (goPackage.TestSrcs (goPackage.properties g))
               then filepath.Join [testRoot ctx; pkgPath +:+ ".a"]
               else goPackage.GoTestTarget g))
  /\ (forall (plugins : list string) (g : goBinary.t) (ctx : ModuleContext.t),
        let g' := (goBinary_GenerateBuildActions plugins g ctx).1 in
        goBinary.properties g' = goBinary.properties g
        /\ goBinary.config g' = goBinary.config g
        /\ goBinary.buildStage g' = goBinary.buildStage g
        /\ goBinary.GoTestTarget g'
           = if testsEnabled (goBinary.config g)
                  (goBinary.TestSrcs (goBinary.properties g))
             then filepath.Join [testRoot ctx; ModuleContext.ModuleName ctx +:+ ".a"]
             else goBinary.GoTestTarget g).
Proof.
  split.
  - intros g ctx g' pkgPath.
    destruct (decide (pkgPath = "")) as [Hempty|Hne].
    + assert (Hg : g' = g).
      { subst g'. unfold goPackage_GenerateBuildActions.
        fold pkgPath. by rewrite Hempty. }
      rewrite Hg. by repeat split.
    + destruct (goPackage_generate_fields g ctx Hne)
        as (Hp & Hc & Hs & Hr & Ha & Ht).
      fold g' in Hp, Hc, Hs, Hr, Ha, Ht.
      split; [done|]. split; [done|]. split; [done|].
      split; [intros Hempty; by destruct Hne|]. by intros _.
  - intros plugins g ctx g'. subst g'. rewrite goBinary_generate_module.
    by destruct (testsEnabled _ _).
Qed.

Lemma generation_fills_paths_only_witness :
  ltac:(let T := type of (proj1 generation_fills_paths_only
                            (exParser (exConfig StageBootstrap true)) exParserCtx) in
        let T := eval cbv zeta in T in exact T).
Proof. apply (proj1 generation_fills_paths_only). Defined.

Lemma testPipeline_real (srcDir : string) (deps : list Module)
    (testRoot testPkgArchive pkgPath : string) (srcs genSrcs testSrcs : list string) :
  Forall (fun a => ~ isPlaceholder a)
    (testPipeline srcDir deps testRoot testPkgArchive pkgPath srcs genSrcs testSrcs).
Proof.
  unfold testPipeline, isPlaceholder.
  repeat constructor; intros [H|H]; discriminate H.
Qed.

(** A Binary module never reports an error and emits in three ways.
    Built in the active stage, it emits real actions only, and at least
    three.  With the active stage Bootstrap and its own stage another, it
    emits nothing.  In every other case it emits placeholders only, and the
    first placeholder after those of the test archive stands for the binary
    in the binary directory. *)
Theorem binary_emission_three_ways (plugins : list string) (g : goBinary.t)
    (ctx : ModuleContext.t) :
  let active := stage (goBinary.config g) in
  let r := goBinary_GenerateBuildActions plugins g ctx in
  ModuleContext.errs r.2 = ModuleContext.errs ctx
  /\ (active = goBinary.buildStage g ->
      exists actions : list BuildParams,
        ModuleContext.builds r.2 = ModuleContext.builds ctx ++ actions
        /\ 3 <= List.length actions
        /\ Forall (fun a => ~ isPlaceholder a) actions)
  /\ (active <> goBinary.buildStage g -> active = StageBootstrap ->
      ModuleContext.builds r.2 = ModuleContext.builds ctx)
  /\ (active <> goBinary.buildStage g -> active <> StageBootstrap ->
      exists (tests rest : list BuildParams) (a : BuildParams),
        ModuleContext.builds r.2 = ModuleContext.builds ctx ++ tests ++ a :: rest
        /\ Forall isPlaceholder (tests ++ a :: rest)
        /\ Rule a = phony
        /\ Outputs a = [filepath.Join ["$BinDir"; ModuleContext.ModuleName ctx]]
        /\ (testsEnabled (goBinary.config g)
              (goBinary.TestSrcs (goBinary.properties g)) = false -> tests = [])).
Proof.
  intros active r.
  destruct (goBinary_generate_emits plugins g ctx) as (Hb & He & _).
  fold r active in Hb, He. unfold binaryActions in Hb. cbv zeta in Hb.
  split; [exact He|]. split; [|split].
  - intros Heq. rewrite (bool_decide_eq_true_2 _ Heq) in Hb.
    eexists. split; [exact Hb|]. split.
    + rewrite !length_app. cbn. lia.
    + apply Forall_app. split.
      { destruct (withPlugins plugins g); repeat constructor.
        intros [H|H]; discriminate H. }
      apply Forall_app. split.
      { destruct (testsEnabled _ _); [apply testPipeline_real|constructor]. }
      unfold isPlaceholder. repeat constructor; intros [H|H]; discriminate H.
  - intros Hneq Hboot. rewrite (bool_decide_eq_false_2 _ Hneq) in Hb.
    rewrite (bool_decide_eq_true_2 _ Hboot) in Hb. by rewrite app_nil_r in Hb.
  - intros Hneq Hboot. rewrite (bool_decide_eq_false_2 _ Hneq) in Hb.
    rewrite (bool_decide_eq_false_2 _ Hboot) in Hb.
    unfold phonyTarget at 2 in Hb.
    eexists _, _, _. split; [exact Hb|].
    split; [|split; [done|split; [done|]]].
    + apply Forall_app. split.
      * destruct (testsEnabled _ _); [apply phonyTarget_placeholders|constructor].
      * apply (phonyTarget_placeholders _ _ _ _ _ [_; _]).
    + by intros ->.
Qed.

Lemma binary_emission_three_ways_witness :
  ltac:(let T := type of (binary_emission_three_ways ["my-plugin"]
                            (exBinary (exConfig StageBootstrap true) StagePrimary true)
                            (exBinaryCtx (exConfig StageBootstrap true))) in
        let T := eval cbv zeta in T in exact T).
Proof. apply binary_emission_three_ways. Defined.

(** ** The wiring of the stages *)

Lemma visitBinary_paths (modules : list (string * Module)) (acc : binaries) :
  let found :=
    fold_left visitBinary
      (List.filter (fun m => isBootstrapBinaryModule m.2) modules) acc in
  rebootstrapDeps found = rebootstrapDeps acc ++ binaryPaths true modules
  /\ primaryRebootstrapDeps found
     = primaryRebootstrapDeps acc ++ binaryPaths false modules.
Proof.
  unfold binaryPaths. revert acc.
  induction modules as [|[n m] modules IH]; intros acc;
    cbn [List.filter omap list_omap fold_left].
  - cbn. by rewrite !app_nil_r.
  - destruct m as [g|b|]; cbn; try apply IH.
    destruct (IH (visitBinary acc (n, GoBinary b))) as [H1 H2].
    cbn in H1, H2. rewrite H1, H2. cbn.
    case_bool_decide; cbn; by rewrite <- ?app_assoc.
Qed.


(** With at most one flagged Binary the singleton goes on to the wiring,
    with the name it settled on, the flag [-p] only for [minibp] standing
    in, and the binaries split by stage. *)
Lemma singleton_at_most_one (s : singleton) (ctx : SingletonContext.t) :
  List.length (flaggedBinaries (SingletonContext.modules ctx)) <= 1 ->
  singleton_GenerateBuildActions s ctx
  = singleton_wire s ctx
      (primaryBuilderNameOf (flaggedBinaries (SingletonContext.modules ctx)))
      (match flaggedBinaries (SingletonContext.modules ctx) with
       | [] => "-p"
       | _ => ""
       end)
      (binaryPaths true (SingletonContext.modules ctx))
      (binaryPaths false (SingletonContext.modules ctx)).
Proof.
  intros Hcount. unfold singleton_GenerateBuildActions. cbv zeta.
  set (found := SingletonContext.VisitAllModulesIf ctx isBootstrapBinaryModule
                  visitBinary _).
  assert (Hfound : primaryBuilders found
                   = flaggedBinaries (SingletonContext.modules ctx)).
  { unfold found, SingletonContext.VisitAllModulesIf.
    by rewrite visitBinary_primaryBuilders. }
  assert (Hpaths : rebootstrapDeps found
                   = binaryPaths true (SingletonContext.modules ctx)
                   /\ primaryRebootstrapDeps found
                      = binaryPaths false (SingletonContext.modules ctx)).
  { unfold found, SingletonContext.VisitAllModulesIf.
    apply (visitBinary_paths (SingletonContext.modules ctx)
             {| primaryBuilders := []; rebootstrapDeps := [];
                primaryRebootstrapDeps := [] |}). }
  destruct Hpaths as [-> ->]. rewrite Hfound.
  destruct (flaggedBinaries (SingletonContext.modules ctx)) as [|b1 [|b2 bs]];
    [done|done|cbn in Hcount; lia].
Qed.

Ltac split_in H :=
  repeat (destruct H as [H|H]; [subst|]); [..|destruct H].







(** In the Main stage the singleton copies [minibp] to the [bin]
    directory of the build exactly when the name of the primary builder is
    [minibp]: when no Binary is flagged, and also when the one flagged
    Binary is itself named [minibp].  No other action of the stage uses the
    copy rule. *)
Theorem main_stage_copies_minibp (s : singleton) (ctx : SingletonContext.t) :
  List.length (flaggedBinaries (SingletonContext.modules ctx)) <= 1 ->
  stage (singleton_config s) = StageMain ->
  let ctx' := singleton_GenerateBuildActions s ctx in
  let pbName := primaryBuilderNameOf (flaggedBinaries (SingletonContext.modules ctx)) in
  let copy := build cp [filepath.Join ["$buildDir"; "bin"; "minibp"]]
                [filepath.Join ["$BinDir"; "minibp"]] [] ∅ in
  exists actions : list BuildParams,
    SingletonContext.builds ctx' = SingletonContext.builds ctx ++ actions
    /\ (In copy actions <-> pbName = "minibp")
    /\ (forall a, In a actions -> Rule a = cp -> a = copy /\ pbName = "minibp").
Proof.
  intros Hcount Hstage ctx' pbName copy.
  subst ctx'. rewrite (singleton_at_most_one s ctx Hcount). fold pbName.
  generalize (match flaggedBinaries (SingletonContext.modules ctx) with
              | [] => "-p" | _ => "" end).
  generalize (binaryPaths true (SingletonContext.modules ctx)).
  generalize (binaryPaths false (SingletonContext.modules ctx)).
  intros prb rb flags.
  unfold singleton_wire. cbv zeta. rewrite Hstage.
  destruct (SingletonContext.VisitAllModulesIf _ _ _ _) as [rb' prb'].
  destruct (String.eqb pbName "minibp") eqn:Hname.
  - apply String.eqb_eq in Hname. rewrite Hname.
    cbn. rewrite <- !app_assoc. cbn [app].
    eexists. split; [reflexivity|]. split.
    + split; [done|]. intros _. do 4 right. by left.
    + intros a Ha Hrule. split_in Ha; try discriminate Hrule. done.
  - apply String.eqb_neq in Hname.
    cbn. rewrite <- !app_assoc. cbn [app].
    eexists. split; [reflexivity|]. split.
    + split; [|done]. intros Ha. split_in Ha; discriminate Ha.
    + intros a Ha Hrule. split_in Ha; discriminate Hrule.
Qed.

Lemma main_stage_copies_minibp_witness :
  ltac:(let T := type of (main_stage_copies_minibp
                            {| singleton_config := exConfig StageMain false |}
                            (SingletonContext.start
                               (exModules (exConfig StageMain false) true false))) in
        let T := eval cbv zeta in T in
        let P := instance_of T in exact P).
Proof.
  split; [vm_compute; lia|]. split; [reflexivity|].
  apply main_stage_copies_minibp; [vm_compute; lia|reflexivity].
Defined.

(** ** Which modules end in the Bootstrap stage *)

Lemma pass_reaches (order : list moduleInfo) (mods : gmap string Module)
    (a b : string) :
  topDown order = true ->
  stageOf (runStagePropagation order mods) a = Some StageBootstrap ->
  tc (stagedDependsOn order mods) a b ->
  stageOf (runStagePropagation order mods) b = Some StageBootstrap.
Proof.
  intros Htop Ha Htc. induction Htc as [a b Hstep|a b c Hstep _ IH].
  - destruct Hstep as [(mi & Hmi & <- & Hb) Hsome].
    by apply (pass_direct order mods mi b).
  - apply IH. destruct Hstep as [(mi & Hmi & <- & Hb) Hsome].
    by apply (pass_direct order mods mi b).
Qed.

(** After a top-down pass, the modules of the Bootstrap stage are
    exactly those that were there before the pass and those reached from
    one of them through dependencies that all have a stage.  The pass puts
    no other module into the Bootstrap stage, in whatever order it runs. *)
Theorem bootstrap_stage_exactly (order : list moduleInfo)
    (mods : gmap string Module) :
  topDown order = true ->
  let mods' := runStagePropagation order mods in
  forall x : string,
    stageOf mods' x = Some StageBootstrap
    <-> (stageOf mods x = Some StageBootstrap
         \/ exists a : string,
              stageOf mods a = Some StageBootstrap
              /\ tc (stagedDependsOn order mods) a x).
Proof.
  intros Htop mods' x. split.
  - apply (pass_sound order order mods mods); [done|done|]. intros y Hy. by left.
  - intros [Hstart|(a & Ha & Hreach)].
    + by apply pass_keeps_bootstrap.
    + apply (pass_reaches order mods a x); [done| |done].
      by apply pass_keeps_bootstrap.
Qed.

Lemma bootstrap_stage_exactly_witness :
  ltac:(let T := type of (bootstrap_stage_exactly exForeignOrder
                            (exForeignMods (exConfig StageBootstrap false))) in
        let T := eval cbv zeta in T in
        let P := instance_of T in exact P).
Proof. split; [reflexivity | by apply bootstrap_stage_exactly]. Defined.

(** ** The files that the test pipeline writes *)

(** The test pipeline writes five files, one per action.  The four that
    it names itself -- the test main, its archive, the executable and the
    sentinel -- are pairwise different whatever the test root is, so two
    actions of the pipeline write the same file only if the test archive of
    the package is itself one of these four. *)
Theorem test_pipeline_outputs (ctx : ModuleContext.t)
    (testRoot testPkgArchive pkgPath : string) (srcs genSrcs testSrcs : list string) :
  testSrcs <> [] ->
  let r := buildGoTest ctx testRoot testPkgArchive pkgPath srcs genSrcs testSrcs in
  let fixed := [filepath.Join [testRoot; "test.go"];
                filepath.Join [testRoot; "test.a"];
                filepath.Join [testRoot; "test"];
                filepath.Join [testRoot; "test.passed"]] in
  exists actions : list BuildParams,
    ModuleContext.builds r.1 = ModuleContext.builds ctx ++ actions
    /\ map Outputs actions = [testPkgArchive] :: map (fun p => [p]) fixed
    /\ NoDup fixed
    /\ (NoDup (concat (map Outputs actions)) <-> ~ In testPkgArchive fixed).
Proof.
  intros Hne r fixed.
  destruct (buildGoTest_emits ctx testRoot testPkgArchive pkgPath srcs genSrcs
              testSrcs Hne) as [(Hb & _) _].
  fold r in Hb. eexists. split; [exact Hb|].
  assert (Hfixed : NoDup fixed).
  { unfold fixed. repeat (apply NoDup_cons; split);
      rewrite ?list_elem_of_In; cbn [In];
      try (intros H; split_in H; revert H; by apply Join_plain_ne);
      try apply NoDup_nil_2; tauto. }
  split; [reflexivity|]. split; [exact Hfixed|].
  unfold testPipeline, compileAction. cbn [map concat Outputs app].
  fold fixed. rewrite NoDup_cons, list_elem_of_In. tauto.
Qed.

Lemma test_pipeline_outputs_witness :
  ltac:(let T := type of (test_pipeline_outputs exParserCtx
                            "$buildDir/.bootstrap/blueprint-parser/test"
                            "$buildDir/.bootstrap/blueprint-parser/test/parser.a"
                            "github.com/google/blueprint/parser"
                            ["parser/parser.go"] [] ["parser/parser_test.go"]) in
        let T := eval cbv zeta in T in
        let P := instance_of T in exact P).
Proof. split; [done | by apply test_pipeline_outputs]. Defined.

(** A module whose tests shadow the test main.  A Package with the
    package path [test], and a Binary named [test], built in the active
    stage with testing applying, get a test archive at the path of the
    archive of the generated test main: the first and the third action of
    the test pipeline are two compile actions, for two different packages,
    that write the same file.  For a Binary this holds whatever the plugin
    list is; the pipeline then comes after the action that generates the
    plugin source, when there is one. *)
Theorem test_archive_can_shadow_test_main :
  (forall (g : goPackage.t) (ctx : ModuleContext.t),
      goPackage.PkgPath (goPackage.properties g) = "test" ->
      stage (goPackage.config g) = goPackage.buildStage g ->
      testsEnabled (goPackage.config g)
        (goPackage.TestSrcs (goPackage.properties g)) = true ->
      exists (a1 a2 a3 : BuildParams) (rest : list BuildParams),
        ModuleContext.builds (goPackage_GenerateBuildActions g ctx).2
        = ModuleContext.builds ctx ++ a1 :: a2 :: a3 :: rest
        /\ Rule a1 = compile /\ Rule a3 = compile
        /\ Args a1 !! "pkgPath" = Some "test"
        /\ Args a3 !! "pkgPath" = Some "main"
        /\ Outputs a1 = [filepath.Join [testRoot ctx; "test.a"]]
        /\ Outputs a3 = Outputs a1)
  /\ (forall (plugins : list string) (g : goBinary.t) (ctx : ModuleContext.t),
        ModuleContext.ModuleName ctx = "test" ->
        stage (goBinary.config g) = goBinary.buildStage g ->
        testsEnabled (goBinary.config g)
          (goBinary.TestSrcs (goBinary.properties g)) = true ->
        exists (pre : list BuildParams) (a1 a2 a3 : BuildParams)
               (rest : list BuildParams),
          ModuleContext.builds (goBinary_GenerateBuildActions plugins g ctx).2
          = ModuleContext.builds ctx ++ pre ++ a1 :: a2 :: a3 :: rest
          /\ pre = (if withPlugins plugins g
                    then [pluginAction (moduleObjDir ctx) (ModuleContext.deps ctx)]
                    else [])
          /\ Rule a1 = compile /\ Rule a3 = compile
          /\ Args a1 !! "pkgPath" = Some "test"
          /\ Args a3 !! "pkgPath" = Some "main"
          /\ Outputs a1 = [filepath.Join [testRoot ctx; "test.a"]]
          /\ Outputs a3 = Outputs a1).
Proof.
  assert (Hargs : forall roots, compileArgs "test" roots !! "pkgPath" = Some "test").
  { intros roots. unfold compileArgs. destruct roots; [apply lookup_singleton_eq|].
    rewrite lookup_insert_ne by done. apply lookup_singleton_eq. }
  split.
  - intros g ctx Hpath Hstage Htest.
    assert (Hne : goPackage.PkgPath (goPackage.properties g) <> "")
      by (rewrite Hpath; done).
    destruct (goPackage_generate_emits g ctx Hne) as (Hb & _).
    unfold packageActions in Hb. cbv zeta in Hb.
    rewrite (bool_decide_eq_true_2 _ Hstage), Htest, Hpath in Hb.
    change (filepath.Join [bootstrapDir; ModuleContext.ModuleName ctx; "test"])
      with (testRoot ctx) in Hb.
    unfold testPipeline in Hb. cbn [app] in Hb.
    eexists _, _, _, _. split; [exact Hb|].
    split; [done|]. split; [done|]. split; [apply Hargs|].
    split; [|done]. cbn [Args]. rewrite lookup_insert_ne by done.
    apply lookup_singleton_eq.
  - intros plugins g ctx Hname Hstage Htest.
    destruct (goBinary_generate_emits plugins g ctx) as (Hb & _).
    unfold binaryActions in Hb. cbv zeta in Hb.
    rewrite (bool_decide_eq_true_2 _ Hstage), Htest in Hb.
    change (filepath.Join [bootstrapDir; ModuleContext.ModuleName ctx; "test"])
      with (testRoot ctx) in Hb.
    change (filepath.Join [bootstrapDir; ModuleContext.ModuleName ctx; "obj"])
      with (moduleObjDir ctx) in Hb.
    rewrite Hname in Hb.
    unfold testPipeline in Hb. cbn [app] in Hb.
    eexists _, _, _, _, _. split; [exact Hb|].
    split; [done|]. split; [done|]. split; [done|]. split; [apply Hargs|].
    split; [|done]. cbn [Args]. rewrite lookup_insert_ne by done.
    apply lookup_singleton_eq.
Qed.

Lemma test_archive_can_shadow_test_main_witness :
  ltac:(let T := type of (proj1 test_archive_can_shadow_test_main
                            (goPackage.new (exConfig StagePrimary true)
                               {| goPackage.PkgPath := "test";
                                  goPackage.Srcs := ["t.go"];
                                  goPackage.TestSrcs := ["t_test.go"];
                                  goPackage.Plugin := false |})
                            (ModuleContext.start "testing" "testing" [])) in
        let T := eval cbv zeta in T in
        let P := instance_of T in exact P)
  /\ ltac:(let T := type of (proj2 test_archive_can_shadow_test_main ["my-plugin"]
                               (exBinary (exConfig StagePrimary true) StagePrimary true)
                               (ModuleContext.start "test" "." [])) in
           let T := eval cbv zeta in T in
           let P := instance_of T in exact P).
Proof.
  split.
  - repeat (split; [done|]). by apply (proj1 test_archive_can_shadow_test_main).
  - repeat (split; [done|]). by apply (proj2 test_archive_can_shadow_test_main).
Defined.

(** ** Packages and the Main stage *)

(** The entry of a name after a pass: as before, or as before with the
    stage set to Bootstrap. *)
Lemma pass_lookup (order : list moduleInfo) (mods : gmap string Module)
    (n : string) :
  runStagePropagation order mods !! n = mods !! n
  \/ runStagePropagation order mods !! n = forceBootstrap <$> mods !! n.
Proof.
  unfold runStagePropagation. revert mods.
  induction order as [|mi order IH]; intros mods; [by left|].
  cbn [fold_left].
  destruct (IH (propagateStageBootstrap (name mi) (directDeps mi) mods)) as [H|H];
    rewrite H, lookup_propagate; destruct (_ && _); auto.
  right. destruct (mods !! n) as [m|]; [|done]. cbn. by rewrite force_twice.
Qed.

(** No Package is compiled in the Main stage.  The factory makes a
    Package in the Primary stage and the only writer of stages, the
    propagation pass, writes Bootstrap: after any pass a Package from the
    factory is as the factory made it but for its stage, which is Primary or
    Bootstrap, and when the active stage is Main its actions are
    placeholders and it reports nothing. *)
Theorem package_is_placeholder_in_main (order : list moduleInfo)
    (mods : gmap string Module) (n : string) (cfg : Config)
    (props : goPackage.Properties) (ctx : ModuleContext.t) :
  mods !! n = Some (GoPackage (goPackage.new cfg props)) ->
  goPackage.PkgPath props <> "" ->
  exists g : goPackage.t,
    runStagePropagation order mods !! n = Some (GoPackage g)
    /\ sameButStage (GoPackage (goPackage.new cfg props)) (GoPackage g)
    /\ (goPackage.buildStage g = StagePrimary
        \/ goPackage.buildStage g = StageBootstrap)
    /\ (stage cfg = StageMain ->
        let r := goPackage_GenerateBuildActions g ctx in
        exists placeholders : list BuildParams,
          ModuleContext.builds r.2 = ModuleContext.builds ctx ++ placeholders
          /\ placeholders <> []
          /\ Forall isPlaceholder placeholders
          /\ ModuleContext.errs r.2 = ModuleContext.errs ctx).
Proof.
  intros Hn Hpath.
  assert (Hg : exists g : goPackage.t,
             runStagePropagation order mods !! n = Some (GoPackage g)
             /\ goPackage.properties g = props
             /\ goPackage.config g = cfg
             /\ sameButStage (GoPackage (goPackage.new cfg props)) (GoPackage g)
             /\ (goPackage.buildStage g = StagePrimary
                 \/ goPackage.buildStage g = StageBootstrap)).
  { destruct (pass_lookup order mods n) as [H|H]; rewrite H, Hn.
    - exists (goPackage.new cfg props). repeat split; auto.
    - eexists. split; [reflexivity|]. repeat split; auto. }
  destruct Hg as (g & Hlook & Hprops & Hcfg & Hsame & Hstage).
  exists g. split; [done|]. split; [done|]. split; [done|].
  intros Hmain r.
  assert (Hne : goPackage.PkgPath (goPackage.properties g) <> "")
    by by rewrite Hprops.
  destruct (goPackage_generate_emits g ctx Hne) as (Hb & He & _).
  fold r in Hb, He. unfold packageActions in Hb. cbv zeta in Hb.
  rewrite Hcfg, Hmain in Hb.
  rewrite bool_decide_eq_false_2 in Hb by (destruct Hstage; congruence).
  rewrite bool_decide_eq_false_2 in Hb by done.
  eexists. split; [exact Hb|]. split; [|split; [|exact He]].
  - unfold phonyTarget. intros H. by apply app_eq_nil in H as [_ H].
  - apply Forall_app. split; [|apply phonyTarget_placeholders].
    destruct (testsEnabled _ _); [apply phonyTarget_placeholders|constructor].
Qed.

Lemma package_is_placeholder_in_main_witness :
  ltac:(let T := type of (package_is_placeholder_in_main exForeignOrder
                            (<["blueprint-parser" :=
                                 GoPackage (goPackage.new (exConfig StageMain true)
                                              exParserProps)]> ∅)
                            "blueprint-parser" (exConfig StageMain true)
                            exParserProps exParserCtx) in
        let T := eval cbv zeta in T in
        let P := instance_of T in exact P).
Proof.
  split; [reflexivity|]. split; [done|].
  by apply package_is_placeholder_in_main.
Defined.
